(** * playsound: the three playback backends of [playsound.py]

    A shallow embedding of [src/playsound.py].  Each backend class becomes a
    module: the instance attributes are a record, every method is a function
    in a small state-and-exception monad over that record and over the trace
    of calls made into the native sound subsystem.  The native subsystems
    (the MCI command interface, AppKit's NSSound, GStreamer) are outside the
    repository; they appear as oracles that answer each native call.

    Python text is modelled by [string], holding the UTF-8 bytes of the
    text.  The two codec steps [winCommand] applies to its own command
    ([encode(getfilesystemencoding())] on the way in, [decode()] on the way
    out) are mutually inverse on text.  The error description comes from
    the subsystem as bytes, and [decode()] on it is strict UTF-8 decoding,
    which can fail.  The reply buffer of an accepted command is taken as
    the text it holds. *)

From Stdlib Require Import String Ascii List ZArith QArith Lia Bool DecimalString.
From Stdlib Require DecimalPos DecimalZ.
From stdpp Require Import base decidable gmap strings.
Import ListNotations.

Open Scope string_scope.
Open Scope list_scope.

(** ** Python text operations used by the source *)

Module Py.

(** [str(n)] for an [int]. *)
Definition str (n : Z) : string := NilZero.string_of_int (Z.to_int n).

(** [s.startswith(p)]. *)
Fixpoint startswith (p s : string) : bool :=
  match p, s with
  | EmptyString, _ => true
  | String a p', String b s' => if Ascii.eqb a b then startswith p' s' else false
  | String _ _, EmptyString => false
  end.

(** [sub in s]: some suffix of [s] starts with [sub]. *)
Fixpoint contains (sub s : string) : bool :=
  startswith sub s ||
  match s with
  | EmptyString => false
  | String _ s' => contains sub s'
  end.

(** [sep.join(parts)]. *)
Definition join (sep : string) (parts : list string) : string :=
  String.concat sep parts.

(** [b.decode()]: strict UTF-8.  A lead byte fixes how many continuation
    bytes follow; overlong forms, surrogates and code points past U+10FFFF
    are refused, as CPython refuses them. *)
Definition in_range (lo hi : N) (a : ascii) : bool :=
  ((lo <=? N_of_ascii a) && (N_of_ascii a <=? hi))%N.

Definition continuation (a : ascii) : bool := in_range 128 191 a.

Fixpoint utf8 (b : string) : bool :=
  match b with
  | EmptyString => true
  | String a b1 =>
      if in_range 0 127 a then utf8 b1
      else if in_range 194 223 a then
        match b1 with
        | String c1 b2 => continuation c1 && utf8 b2
        | _ => false
        end
      else if in_range 224 239 a then
        match b1 with
        | String c1 (String c2 b3) =>
            (if in_range 224 224 a then in_range 160 191 c1
             else if in_range 237 237 a then in_range 128 159 c1
             else continuation c1)
            && continuation c2 && utf8 b3
        | _ => false
        end
      else if in_range 240 244 a then
        match b1 with
        | String c1 (String c2 (String c3 b4)) =>
            (if in_range 240 240 a then in_range 144 191 c1
             else if in_range 244 244 a then in_range 128 143 c1
             else continuation c1)
            && continuation c2 && continuation c3 && utf8 b4
        | _ => false
        end
      else false
  end.

Definition decode (b : string) : option string :=
  if utf8 b then Some b else None.

(** The double-quote character, for the f-string of [playsoundWin.play]. *)
Definition dquote : string := String (ascii_of_nat 34) EmptyString.

(** Exceptions, by class, with the data the source puts in them. *)
Inductive type_error : Type :=
| AbstractInstantiation (cls : string) (missing : gset string)
    (* object.__new__ on a class whose __abstractmethods__ is not empty *)
| NotCallable (type_name : string)
    (* calling a value that is not callable, e.g. False() *)
| RaiseNonException.
    (* raise X where X does not derive from BaseException *)

Inductive exn : Type :=
| PlaysoundException (msg : string)
| IOError (msg : string)
| NotImplementedError (msg : string)
| AttributeError (type_name attr : string)
| TypeError (why : type_error)
| UnicodeDecodeError (codec : string).

(** What a call does: return, raise, or not return: it is still running
    when the fuel given to an unbounded [while True] loop is used up, or it
    waits in a native call that never comes back. *)
Inductive outcome (A : Type) : Type :=
| Ret (a : A)
| Raise (e : exn)
| OutOfFuel.
Arguments Ret {A} a.
Arguments Raise {A} e.
Arguments OutOfFuel {A}.

Definition returns {A} (o : outcome A) : bool :=
  match o with Ret _ => true | _ => false end.

Definition raises {A} (o : outcome A) : bool :=
  match o with Raise _ => true | _ => false end.

(** Methods run over the instance attributes [S] and the trace [E] of
    native calls made so far (oldest first).  An exception leaves the
    attributes and the trace as they were when it was raised. *)
Section Effects.
Context {S E : Type}.

Definition M (A : Type) : Type := S -> list E -> outcome A * S * list E.

Definition ret {A} (a : A) : M A := fun s t => (Ret a, s, t).

Definition bind {A B} (c : M A) (k : A -> M B) : M B :=
  fun s t =>
    match c s t with
    | (Ret a, s', t') => k a s' t'
    | (Raise e, s', t') => (Raise e, s', t')
    | (OutOfFuel, s', t') => (OutOfFuel, s', t')
    end.

Definition raise {A} (e : exn) : M A := fun s t => (Raise e, s, t).

Definition diverge {A} : M A := fun s t => (OutOfFuel, s, t).

(** Read and write [self]. *)
Definition self : M S := fun s t => (Ret s, s, t).
Definition assign (f : S -> S) : M unit := fun s t => (Ret tt, f s, t).

(** Read the trace, and record one more native call. *)
Definition history : M (list E) := fun s t => (Ret t, s, t).
Definition emit (e : E) : M unit := fun s t => (Ret tt, s, t ++ [e]).

(** [try: c  except <handler>]. *)
Definition try_except {A} (c : M A) (handler : exn -> M A) : M A :=
  fun s t =>
    match c s t with
    | (Raise e, s', t') => handler e s' t'
    | r => r
    end.
End Effects.

Definition result {S E A} (r : outcome A * S * list E) : outcome A := r.1.1.
Definition final {S E A} (r : outcome A * S * list E) : S := r.1.2.
Definition trace {S E A} (r : outcome A * S * list E) : list E := r.2.

End Py.
Import Py.

Declare Scope py_scope.
Delimit Scope py_scope with py.
Notation "x <- c ;; k" := (bind c (fun x => k))
  (at level 100, c at next level, k at level 200, right associativity) : py_scope.
Notation "c ;; k" := (bind c (fun _ => k))
  (at level 100, k at level 200, right associativity) : py_scope.

(** ** Abstract base classes ([abc.ABC], [@abstractmethod])

    A class statement is its name, its base and its namespace; a function in
    a namespace carries [__isabstractmethod__].  [abstractmethods] is what
    [ABCMeta.__new__] stores in [__abstractmethods__]; [new] is the check
    [object.__new__] makes before an instance exists. *)

Module Abc.

Record func : Type := Func { isabstractmethod : bool }.

(** [object] is the root; it has no abstract function. *)
Inductive pyclass : Type :=
| object
| Class (name : string) (base : pyclass) (namespace : gmap string func).

Definition class_name (c : pyclass) : string :=
  match c with object => "object" | Class n _ _ => n end.

(** The names bound in the body of the class statement itself. *)
Definition namespace (c : pyclass) : gmap string func :=
  match c with object => ∅ | Class _ _ ns => ns end.

(** [getattr(cls, name, None)]: the namespace of the class, then of its
    bases (single inheritance throughout the source). *)
Fixpoint getattr (c : pyclass) (name : string) : option func :=
  match c with
  | object => None
  | Class _ b ns =>
      match ns !! name with
      | Some f => Some f
      | None => getattr b name
      end
  end.

Definition is_abstract (o : option func) : bool :=
  match o with Some f => isabstractmethod f | None => false end.

Fixpoint abstractmethods (c : pyclass) : gset string :=
  match c with
  | object => ∅
  | Class _ b ns =>
      let own := dom (filter (fun kv => isabstractmethod kv.2 = true) ns) in
      let inherited :=
        filter (fun name => is_abstract (getattr c name) = true)
               (abstractmethods b) in
      own ∪ inherited
  end.

(** [cls()] up to the point where [__init__] would run. *)
Definition new (c : pyclass) : outcome unit :=
  if decide (abstractmethods c = ∅) then Ret tt
  else Raise (TypeError (AbstractInstantiation (class_name c) (abstractmethods c))).

Definition abstract : func := Func true.
Definition concrete : func := Func false.

(** [class ABC(metaclass=ABCMeta)]: no abstract methods of its own. *)
Definition ABC : pyclass := Class "ABC" object ∅.

(** The four class statements of the source, by the [def]s in each body. *)
Definition playsoundBase : pyclass :=
  Class "playsoundBase" ABC
    (<["__init__" := concrete]>
     (<["play" := abstract]>
     (<["stop" := abstract]>
     (<["pause" := abstract]>
     (<["resume" := abstract]> ∅))))).

Definition playsoundWin : pyclass :=
  Class "playsoundWin" playsoundBase
    (list_to_map
       (map (fun n => (n, concrete))
          ["__init__"; "close_alias"; "stop_audio"; "pause_audio";
           "resume_audio"; "get_duration_of_audio"; "get_status";
           "winCommand"; "_manage_block"; "play"; "stop"; "pause"; "resume"])).

Definition playsoundOSX : pyclass :=
  Class "playsoundOSX" playsoundBase
    (list_to_map
       (map (fun n => (n, concrete))
          ["__init__"; "play"; "stop"; "resume"; "pause"])).

Definition playsoundNix : pyclass :=
  Class "playsoundNix" playsoundBase
    (list_to_map (map (fun n => (n, concrete)) ["play"; "stop"])).

(** The selector at the end of the module: [platform.system()] picks the
    class bound to the name [playsound]; any other value binds nothing. *)
Definition playsound (operating_system : string) : option pyclass :=
  if String.eqb operating_system "Windows" then Some playsoundWin
  else if String.eqb operating_system "Darwin" then Some playsoundOSX
  else if String.eqb operating_system "Linux" then Some playsoundNix
  else None.

End Abc.


(** ** The Command-Interface backend: [class playsoundWin] *)

Module Win.

(** Calls that leave the process: a command string handed to
    [mciSendStringA], and [sleep(seconds)]. *)
Inductive event : Type :=
| Command (text : string)
| Sleep (seconds : Q).

(** The multimedia control interface.  [mciSendStringA] answers a command,
    given everything that happened before it, with an error code and the
    contents of the reply buffer; [mciGetErrorStringA] gives the bytes of
    the description of a code, in the code page of the system. *)
Record MCI : Type := {
  mciSendStringA : list event -> string -> Z * string;
  mciGetErrorStringA : Z -> string
}.

(** Instance attributes.  [pause_audio] is the entry of that name in the
    instance dictionary: [None] while the name still resolves to the method
    of the class, [Some b] once the instance attribute holds the bool [b]. *)
Record playsoundWin : Type := {
  alias : string;
  stop_sound : bool;
  pause_sound : bool;
  pause_audio : option bool
}.

Definition set_alias (a : string) (s : playsoundWin) : playsoundWin :=
  {| alias := a; stop_sound := stop_sound s;
     pause_sound := pause_sound s; pause_audio := pause_audio s |}.
Definition set_stop_sound (b : bool) (s : playsoundWin) : playsoundWin :=
  {| alias := alias s; stop_sound := b;
     pause_sound := pause_sound s; pause_audio := pause_audio s |}.
Definition set_pause_sound (b : bool) (s : playsoundWin) : playsoundWin :=
  {| alias := alias s; stop_sound := stop_sound s;
     pause_sound := b; pause_audio := pause_audio s |}.
Definition set_pause_audio (v : option bool) (s : playsoundWin) : playsoundWin :=
  {| alias := alias s; stop_sound := stop_sound s;
     pause_sound := pause_sound s; pause_audio := v |}.

Definition mcierr_duplicate_alias : string := "Error 289 for command".

(** The interval of the polling loop, [sleep(0.1)]. *)
Definition poll_interval : Q := 1 # 10.

Definition newline : string := String (ascii_of_nat 10) EmptyString.

(** [__init__], where [id_self] is [id(self)]. *)
Definition __init__ (id_self : Z) : playsoundWin :=
  {| alias := "playsound_alias_" +:+ str id_self;
     stop_sound := false;
     pause_sound := false;
     pause_audio := None |}.

(** [playsoundWin()]. *)
Definition new (id_self : Z) : outcome playsoundWin :=
  match Abc.new Abc.playsoundWin with
  | Ret _ => Ret (__init__ id_self)
  | Raise e => Raise e
  | OutOfFuel => OutOfFuel
  end.

Section Methods.
Variable mci : MCI.

Local Open Scope py_scope.

Definition exceptionMessage (errorCode : Z) (command errorBuffer : string) : string :=
  newline +:+ "    Error " +:+ str errorCode +:+ " for command:" +:+ newline
  +:+ command +:+ newline +:+ "    " +:+ errorBuffer.

Definition winCommand (command : list string) : M (S:=playsoundWin) string :=
  let command := join " " command in
  h <- history ;;
  emit (Command command) ;;
  let '(errorCode, buf) := mciSendStringA mci h command in
  if negb (errorCode =? 0)%Z then
    let errorBuffer := mciGetErrorStringA mci errorCode in
    match decode errorBuffer with
    | Some description =>
        raise (PlaysoundException (exceptionMessage errorCode command description))
    | None => raise (UnicodeDecodeError "utf-8")
    end
  else ret buf.

Definition close_alias : M unit :=
  try_except
    (s <- self ;; winCommand ["close"; alias s] ;; ret tt)
    (fun _ => ret tt).

Definition stop_audio : M unit :=
  s <- self ;; winCommand ["stop"; alias s] ;; ret tt.

(** The method [pause_audio] of the class. *)
Definition pause_audio_method : M unit :=
  s <- self ;; winCommand ["pause"; alias s] ;; ret tt.

Definition resume_audio : M unit :=
  s <- self ;; winCommand ["resume"; alias s] ;; ret tt.

Definition get_duration_of_audio : M string :=
  s <- self ;; winCommand ["status"; alias s; "length"].

(** The reply of an accepted status query is the text of the mode. *)
Definition get_status : M string :=
  s <- self ;; winCommand ["status"; alias s; "mode"].

(** The body of [while True:], run at most [fuel] times. *)
Fixpoint manage_block_loop (fuel : nat) : M unit :=
  match fuel with
  | O => diverge
  | S fuel' =>
      emit (Sleep poll_interval) ;;
      status <- get_status ;;
      if String.eqb status "stopped" then ret tt
      else manage_block_loop fuel'
  end.

(** [start_time = time()] binds a local that is never read. *)
Definition _manage_block (fuel : nat) : M unit :=
  assign (set_stop_sound false) ;;
  assign (set_pause_audio (Some false)) ;;
  manage_block_loop fuel.

(** Truth value of the [alias] argument: [None] and the empty string are
    false. *)
Definition truthy (a : option string) : option string :=
  match a with
  | Some EmptyString => None
  | other => other
  end.

Definition open_command (sound a : string) : list string :=
  ["open " +:+ dquote +:+ sound +:+ dquote +:+ " alias"; a].

Definition play (fuel : nat) (sound : string) (block : bool)
    (alias_arg : option string) : M unit :=
  match truthy alias_arg with
  | Some a => assign (set_alias a)
  | None => ret tt
  end ;;
  close_alias ;;
  try_except
    (s <- self ;; winCommand (open_command sound (alias s)) ;; ret tt)
    (fun e =>
       match e with
       | PlaysoundException msg =>
           (* ignore duplicate alias *)
           if negb (contains mcierr_duplicate_alias msg) then raise e
           else ret tt
       | _ => raise e
       end) ;;
  s <- self ;; winCommand ["play"; alias s] ;;
  if block then _manage_block fuel else ret tt.

Definition stop : M unit :=
  assign (set_stop_sound true) ;;
  stop_audio.

(** [self.pause_audio()] looks the name up on the instance first. *)
Definition pause : M unit :=
  assign (set_pause_sound true) ;;
  s <- self ;;
  match pause_audio s with
  | None => pause_audio_method
  | Some _ => raise (TypeError (NotCallable "bool"))
  end.

Definition resume (fuel : nat) (block : bool) : M unit :=
  assign (set_pause_sound false) ;;
  status <- get_status ;;
  if String.eqb status "paused" then
    resume_audio ;;
    if block then _manage_block fuel else ret tt
  else ret tt.

(** A call of one public method, and a caller that makes calls one after
    the other, going on after a call that raised. *)
Inductive call : Type :=
| Play (sound : string) (block : bool) (alias_arg : option string)
| Stop
| Pause
| Resume (block : bool).

Definition invoke (fuel : nat) (c : call) : M unit :=
  match c with
  | Play sound block alias_arg => play fuel sound block alias_arg
  | Stop => stop
  | Pause => pause
  | Resume block => resume fuel block
  end.

Fixpoint session (fuel : nat) (cs : list call) (s : playsoundWin)
    (t : list event) : playsoundWin * list event :=
  match cs with
  | [] => (s, t)
  | c :: cs' =>
      let r := invoke fuel c s t in
      session fuel cs' (final r) (trace r)
  end.

End Methods.

(** What a refused command raises: it hangs on the bytes of the
    description. *)
Definition refusal (mci : MCI) (errorCode : Z) (text : string) : exn :=
  match decode (mciGetErrorStringA mci errorCode) with
  | Some description => PlaysoundException (exceptionMessage errorCode text description)
  | None => UnicodeDecodeError "utf-8"
  end.

(** *** Reading a trace *)

(** The text of the status query of [get_status] for alias [a]. *)
Definition status_text (a : string) : string := join " " ["status"; a; "mode"].

Definition is_sleep (e : event) : bool :=
  match e with
  | Sleep _ => true
  | Command _ => false
  end.

Definition is_poll (a : string) (e : event) : bool :=
  match e with
  | Command text => String.eqb text (status_text a)
  | Sleep _ => false
  end.

(** How many [sleep] calls, and how many status queries, a trace holds. *)
Definition sleeps (t : list event) : nat := length (List.filter is_sleep t).
Definition polls (a : string) (t : list event) : nat :=
  length (List.filter (is_poll a) t).

(** The trace after [k] more rounds of the polling loop, from trace [t]. *)
Fixpoint poll_trace (a : string) (t : list event) (k : nat) : list event :=
  match k with
  | O => t
  | S k' => poll_trace a ((t ++ [Sleep poll_interval]) ++ [Command (status_text a)]) k'
  end.


(** The alias [play] works with, and the trace at which it enters the
    polling loop when its three commands went through. *)
Definition play_alias (alias_arg : option string) (s : playsoundWin) : string :=
  match truthy alias_arg with
  | Some a => a
  | None => alias s
  end.

(** The attributes after the first statement of [play]. *)
Definition play_self (alias_arg : option string) (s : playsoundWin) : playsoundWin :=
  match truthy alias_arg with
  | Some a => set_alias a s
  | None => s
  end.

(** The attributes on entry to the polling loop of [_manage_block]. *)
Definition block_self (s : playsoundWin) : playsoundWin :=
  set_pause_audio (Some false) (set_stop_sound false s).

Definition play_entry (sound a : string) (t : list event) : list event :=
  ((t ++ [Command (join " " ["close"; a])])
     ++ [Command (join " " (open_command sound a))])
    ++ [Command (join " " ["play"; a])].

(** *** The instance attribute [pause_audio] *)

(** [pause_audio] is bound to [False] on the instance. *)
Definition rebound (s : playsoundWin) : Prop := pause_audio s = Some false.

(** A computation that keeps the rebinding, and one that has made it
    whenever it returns. *)
Definition keeps {A} (c : M (S:=playsoundWin) (E:=event) A) : Prop :=
  forall s t, rebound s -> rebound (final (c s t)).

Definition rebinds {A} (c : M (S:=playsoundWin) (E:=event) A) : Prop :=
  forall s t, returns (result (c s t)) = true -> rebound (final (c s t)).

End Win.

(** ** The Native-Object backend: [class playsoundOSX] *)

Module OSX.

(** AppKit and Foundation, with the working directory of the process.
    [URLWithString_] yields an NSURL or nil; the NSSound initialiser yields
    a sound object or nil. *)
Record AppKit : Type := {
  NSURL : Type;
  NSSound : Type;
  getcwd : string;
  URLWithString_ : string -> option NSURL;
  initWithContentsOfURL_byReference_ : option NSURL -> bool -> option NSSound;
  duration : NSSound -> Q
}.

Section Methods.
Variable w : AppKit.

Inductive event : Type :=
| Call_URLWithString (s : string)
| Call_initWithContentsOfURL (url : option (NSURL w)) (byReference : bool)
| Call_play (snd : NSSound w)
| Call_stop (snd : NSSound w)
| Call_duration (snd : NSSound w)
| Sleep (seconds : Q).

Record playsoundOSX : Type := {
  nssound : option (NSSound w);
  stop_sound : bool;
  pause_sound : bool;
  is_playing : bool
}.

Definition set_nssound (v : option (NSSound w)) (s : playsoundOSX) : playsoundOSX :=
  {| nssound := v; stop_sound := stop_sound s;
     pause_sound := pause_sound s; is_playing := is_playing s |}.
Definition set_stop_sound (b : bool) (s : playsoundOSX) : playsoundOSX :=
  {| nssound := nssound s; stop_sound := b;
     pause_sound := pause_sound s; is_playing := is_playing s |}.
Definition set_is_playing (b : bool) (s : playsoundOSX) : playsoundOSX :=
  {| nssound := nssound s; stop_sound := stop_sound s;
     pause_sound := pause_sound s; is_playing := b |}.

Definition __init__ : playsoundOSX :=
  {| nssound := None; stop_sound := false;
     pause_sound := false; is_playing := false |}.

Definition new : outcome playsoundOSX :=
  match Abc.new Abc.playsoundOSX with
  | Ret _ => Ret __init__
  | Raise e => Raise e
  | OutOfFuel => OutOfFuel
  end.

Local Open Scope py_scope.

(** The first statement of [play]: the text handed to [URLWithString_]. *)
Definition normalize (sound : string) : string :=
  if negb (contains "://" sound) then
    let sound :=
      if negb (startswith "/" sound) then getcwd w +:+ "/" +:+ sound
      else sound in
    "file://" +:+ sound
  else sound.

Definition play (sound : string) (block : bool) : M (S:=playsoundOSX) unit :=
  let sound := normalize sound in
  emit (Call_URLWithString sound) ;;
  let url := URLWithString_ w sound in
  emit (Call_initWithContentsOfURL url true) ;;
  assign (set_nssound (initWithContentsOfURL_byReference_ w url true)) ;;
  s <- self ;;
  match nssound s with
  | None => raise (IOError ("Unable to load sound named: " +:+ sound))
  | Some snd =>
      assign (set_is_playing true) ;;
      emit (Call_play snd) ;;
      if block then
        emit (Call_duration snd) ;;
        emit (Sleep (duration w snd))
      else ret tt
  end.

Definition stop : M (S:=playsoundOSX) unit :=
  assign (set_stop_sound true) ;;
  s <- self ;;
  match nssound s with
  | Some snd => if is_playing s then emit (Call_stop snd) else ret tt
  | None => ret tt
  end.

End Methods.

Arguments Call_URLWithString {w} s.
Arguments Call_initWithContentsOfURL {w} url byReference.
Arguments Call_play {w} snd.
Arguments Call_stop {w} snd.
Arguments Call_duration {w} snd.
Arguments Sleep {w} seconds.
Arguments nssound {w} p.
Arguments stop_sound {w} p.
Arguments pause_sound {w} p.
Arguments is_playing {w} p.

End OSX.

(** ** The Pipeline backend: [class playsoundNix] *)

Module Nix.

(** [Gst.State] and [Gst.StateChangeReturn]. *)
Inductive State : Type := VOID_PENDING | NULL | READY | PAUSED | PLAYING.
Inductive StateChangeReturn : Type := FAILURE | SUCCESS | ASYNC | NO_PREROLL.

Definition StateChangeReturn_eqb (a b : StateChangeReturn) : bool :=
  match a, b with
  | FAILURE, FAILURE | SUCCESS, SUCCESS | ASYNC, ASYNC
  | NO_PREROLL, NO_PREROLL => true
  | _, _ => false
  end.

(** Calls into GStreamer. [Call_bus_poll] is
    [bus.poll(Gst.MessageType.EOS, Gst.CLOCK_TIME_NONE)]. *)
Inductive event : Type :=
| Call_Gst_init
| Call_ElementFactory_make (factoryname name : string)
| Call_set_uri (uri : string)
| Call_set_state (state : State)
| Call_get_bus
| Call_bus_poll.

(** GStreamer and the library functions [play] uses.  [ElementFactory_make]
    says whether the factory yields an element (it yields [None] when the
    factory is unknown); [set_state] answers a state-change request given
    the calls before it; [bus_poll] says whether the poll for end of stream,
    which has no time-out, ever returns; [repr] is Python's [repr] on the
    answer of [set_state]. *)
Record Gst : Type := {
  ElementFactory_make : string -> string -> bool;
  set_state : list event -> State -> StateChangeReturn;
  bus_poll : list event -> bool;
  repr : StateChangeReturn -> string;
  abspath : string -> string;
  pathname2url : string -> string
}.

(** The class defines no instance attribute. *)
Definition playsoundNix : Type := unit.

Definition new : outcome playsoundNix := Abc.new Abc.playsoundNix.

Section Methods.
Variable gst : Gst.

Local Open Scope py_scope.

Definition play (sound : string) (block : bool) : M (S:=playsoundNix) unit :=
  if negb block then
    raise (NotImplementedError "block=False cannot be used on this platform yet")
  else
    emit Call_Gst_init ;;
    emit (Call_ElementFactory_make "playbin" "playbin") ;;
    let uri :=
      if startswith "http://" sound || startswith "https://" sound then sound
      else "file://" +:+ pathname2url gst (abspath gst sound) in
    if negb (ElementFactory_make gst "playbin" "playbin") then
      raise (AttributeError "NoneType" "props")
    else
      emit (Call_set_uri uri) ;;
      h <- history ;;
      emit (Call_set_state PLAYING) ;;
      let set_result := set_state gst h PLAYING in
      if negb (StateChangeReturn_eqb set_result ASYNC) then
        raise (PlaysoundException
                 ("playbin.set_state returned " +:+ repr gst set_result))
      else
        emit Call_get_bus ;;
        h <- history ;;
        emit Call_bus_poll ;;
        if negb (bus_poll gst h) then diverge
        else emit (Call_set_state NULL).

(** [raise NotImplemented]: [NotImplemented] is not an exception. *)
Definition stop : M (S:=playsoundNix) (E:=event) unit :=
  raise (TypeError RaiseNonException).

End Methods.

(** *** Reading a trace *)

(** The URI [play] gives the playbin. *)
Definition uri (gst : Gst) (sound : string) : string :=
  if startswith "http://" sound || startswith "https://" sound then sound
  else "file://" +:+ pathname2url gst (abspath gst sound).

(** The calls [play] has made when it asks for the state [PLAYING]. *)
Definition before_set_state (gst : Gst) (sound : string) : list event :=
  [Call_Gst_init; Call_ElementFactory_make "playbin" "playbin";
   Call_set_uri (uri gst sound)].

(** The calls [play] has made when it starts the poll for end of stream. *)
Definition before_bus_poll (gst : Gst) (sound : string) : list event :=
  before_set_state gst sound ++ [Call_set_state PLAYING; Call_get_bus].

End Nix.

(** ** Stubbed native subsystems

    Concrete oracles, as a test would stub the native layer. *)

Module Stub.

(** Every command succeeds; the status query for alias [a] reads playing
    for the first two polls and stopped from then on. *)
Definition playing_twice (a : string) : Win.MCI :=
  {| Win.mciSendStringA h c :=
       if String.eqb c (Win.status_text a) then
         (0%Z, if (Win.polls a h <? 2)%nat then "playing" else "stopped")
       else (0%Z, EmptyString);
     Win.mciGetErrorStringA _ := EmptyString |}.


(** No device is open: every command is refused with error 263. *)
Definition no_device : Win.MCI :=
  {| Win.mciSendStringA _ _ := (263%Z, EmptyString);
     Win.mciGetErrorStringA _ :=
       "The specified device is not open or is not recognized by MCI." |}.

(** Every [open] is refused with error 263; every other command succeeds. *)
Definition open_refused : Win.MCI :=
  {| Win.mciSendStringA _ c :=
       if startswith "open " c then (263%Z, EmptyString) else (0%Z, EmptyString);
     Win.mciGetErrorStringA _ :=
       "The specified device is not open or is not recognized by MCI." |}.

(** Every command succeeds and the status query always reads playing. *)
Definition always_playing : Win.MCI :=
  {| Win.mciSendStringA _ c :=
       if startswith "status " c then (0%Z, "playing") else (0%Z, EmptyString);
     Win.mciGetErrorStringA _ := EmptyString |}.

(** Every command succeeds and the status query always reads paused until
    a resume command was sent, and stopped after it. *)
Definition paused_then_stopped : Win.MCI :=
  {| Win.mciSendStringA h c :=
       if startswith "status " c then
         (0%Z, if existsb (fun e => match e with
                                    | Win.Command text => startswith "resume " text
                                    | Win.Sleep _ => false
                                    end) h
               then "stopped" else "paused")
       else (0%Z, EmptyString);
     Win.mciGetErrorStringA _ := EmptyString |}.

(** The instance [playsoundWin()] whose [id] is 1, and its alias. *)
Definition player : Win.playsoundWin := Win.__init__ 1.
Definition player_alias : string := "playsound_alias_1".

(** The text of the open command of [player.play("song.mp3")]. *)
Definition open_song : string :=
  join " " (Win.open_command "song.mp3" player_alias).

(** An AppKit whose objects are the texts they were made from: every URL
    is accepted and every sound loads, lasting three seconds. *)
Definition appkit : OSX.AppKit :=
  {| OSX.NSURL := string;
     OSX.NSSound := string;
     OSX.getcwd := "/Users/me";
     OSX.URLWithString_ s := Some s;
     OSX.initWithContentsOfURL_byReference_ url _ := url;
     OSX.duration _ := 3 # 1 |}.

(** A GStreamer with a playbin whose state change fails at once. *)
Definition gst_failure : Nix.Gst :=
  {| Nix.ElementFactory_make _ _ := true;
     Nix.set_state _ _ := Nix.FAILURE;
     Nix.bus_poll _ := true;
     Nix.repr r :=
       match r with
       | Nix.FAILURE => "<enum GST_STATE_CHANGE_FAILURE of type Gst.StateChangeReturn>"
       | Nix.SUCCESS => "<enum GST_STATE_CHANGE_SUCCESS of type Gst.StateChangeReturn>"
       | Nix.ASYNC => "<enum GST_STATE_CHANGE_ASYNC of type Gst.StateChangeReturn>"
       | Nix.NO_PREROLL => "<enum GST_STATE_CHANGE_NO_PREROLL of type Gst.StateChangeReturn>"
       end;
     Nix.abspath s := "/home/me/" +:+ s;
     Nix.pathname2url s := s |}.

End Stub.

(** ** The Native-Object backend: [pause] and [resume]

    [resume] reads the attribute [paused], which [__init__] does not bind.
    The instance is the attributes of [OSX.playsoundOSX] with the entry
    [paused] of the instance dictionary beside them ([None]: not bound), and
    the trace gains the two native calls [pause] and [resume] make. *)

Module OSXTransport.

Section Methods.
Variable w : OSX.AppKit.

Record instance : Type := {
  core : OSX.playsoundOSX w;
  paused : option bool
}.

Inductive event : Type :=
| Core (e : OSX.event w)
| Call_pause (snd : OSX.NSSound w)
| Call_resume (snd : OSX.NSSound w).

Definition __init__ : instance := {| core := OSX.__init__ w; paused := None |}.

(** [play] and [stop] as in [OSX]: they touch neither [paused] nor the two
    new calls, and do not read the trace. *)
Definition lift {A} (c : M (S:=OSX.playsoundOSX w) (E:=OSX.event w) A) :
    M (S:=instance) (E:=event) A :=
  fun s t =>
    let r := c (core s) [] in
    (result r, {| core := final r; paused := paused s |}, t ++ map Core (trace r)).

Definition play (sound : string) (block : bool) : M unit :=
  lift (OSX.play w sound block).

Definition stop : M unit := lift (OSX.stop w).

Definition set_pause_sound (b : bool) (s : instance) : instance :=
  {| core := {| OSX.nssound := OSX.nssound (core s);
                OSX.stop_sound := OSX.stop_sound (core s);
                OSX.pause_sound := b;
                OSX.is_playing := OSX.is_playing (core s) |};
     paused := paused s |}.

Definition set_paused (b : bool) (s : instance) : instance :=
  {| core := core s; paused := Some b |}.

Local Open Scope py_scope.

Definition resume (block : bool) : M unit :=
  s <- self ;;
  match OSX.nssound (core s) with
  | None => ret tt
  | Some snd =>
      match paused s with
      | None => raise (AttributeError "playsoundOSX" "paused")
      | Some false => ret tt
      | Some true =>
          assign (set_paused false) ;;
          emit (Call_resume snd) ;;
          if block then
            emit (Core (OSX.Call_duration snd)) ;;
            emit (Core (OSX.Sleep (OSX.duration w snd)))
          else ret tt
      end
  end.

Definition pause : M unit :=
  assign (set_pause_sound true) ;;
  s <- self ;;
  match OSX.nssound (core s) with
  | Some snd => emit (Call_pause snd)
  | None => ret tt
  end.

(** A call of one public method, and a caller that goes on after a call
    that raised. *)
Inductive call : Type :=
| Play (sound : string) (block : bool)
| Stop
| Pause
| Resume (block : bool).

Definition invoke (c : call) : M unit :=
  match c with
  | Play sound block => play sound block
  | Stop => stop
  | Pause => pause
  | Resume block => resume block
  end.

Fixpoint session (cs : list call) (s : instance) (t : list event) :
    instance * list event :=
  match cs with
  | [] => (s, t)
  | c :: cs' =>
      let r := invoke c s t in
      session cs' (final r) (trace r)
  end.

(** Whether a trace holds a native [resume] call. *)
Definition is_resume (e : event) : bool :=
  match e with
  | Call_resume _ => true
  | _ => false
  end.

End Methods.

Arguments core {w} i.
Arguments paused {w} i.
Arguments Core {w} e.
Arguments Call_pause {w} snd.
Arguments Call_resume {w} snd.
Arguments is_resume {w} e.

End OSXTransport.

(** ** Attributes a computation leaves alone *)

Module Frame.

(** The computation [c] never changes what [f] reads off the attributes,
    however it ends. *)
Definition unchanged {S E X A : Type} (f : S -> X) (c : M (S:=S) (E:=E) A) : Prop :=
  forall s t, f (final (c s t)) = f s.

End Frame.

(** ** More stubbed subsystems *)

Module Scenario.

(** No alias is open, so the close command is refused with error 263; every
    other command succeeds and the status query reads stopped. *)
Definition nothing_to_close : Win.MCI :=
  {| Win.mciSendStringA _ c :=
       if startswith "close " c then (263%Z, EmptyString)
       else if startswith "status " c then (0%Z, "stopped")
       else (0%Z, EmptyString);
     Win.mciGetErrorStringA _ :=
       "The specified device is not open or is not recognized by MCI." |}.

(** The file opens but the device cannot play it: the play command is
    refused with error 277; every other command succeeds. *)
Definition play_refused : Win.MCI :=
  {| Win.mciSendStringA _ c :=
       if startswith "play " c then (277%Z, EmptyString) else (0%Z, EmptyString);
     Win.mciGetErrorStringA _ :=
       "A problem occurred in initializing MCI." |}.

(** The device goes away after the play command: every status query is
    refused with error 263; every other command succeeds. *)
Definition status_refused : Win.MCI :=
  {| Win.mciSendStringA _ c :=
       if startswith "status " c then (263%Z, EmptyString) else (0%Z, EmptyString);
     Win.mciGetErrorStringA _ :=
       "The specified device is not open or is not recognized by MCI." |}.


(** A description in the Windows-1252 code page: the German for device,
    whose fourth letter is the byte 228. *)
Definition geraet : string :=
  "Ger" +:+ String (ascii_of_nat 228) EmptyString +:+ "t nicht bereit.".

(** A German system on which no device is open: every command is refused
    with error 263, described in Windows-1252. *)
Definition no_device_german : Win.MCI :=
  {| Win.mciSendStringA _ _ := (263%Z, EmptyString);
     Win.mciGetErrorStringA _ := geraet |}.

(** A German system on which the command [open_text] is refused with error
    289; every other command succeeds and the status reads stopped. *)
Definition duplicate_alias_german (open_text : string) : Win.MCI :=
  {| Win.mciSendStringA _ c :=
       if String.eqb c open_text then (289%Z, EmptyString)
       else if startswith "status " c then (0%Z, "stopped")
       else (0%Z, EmptyString);
     Win.mciGetErrorStringA _ := geraet |}.

(** A GStreamer whose pipeline never reaches the end of the stream. *)
Definition gst_no_eos : Nix.Gst :=
  {| Nix.ElementFactory_make _ _ := true;
     Nix.set_state _ _ := Nix.ASYNC;
     Nix.bus_poll _ := false;
     Nix.repr := Nix.repr Stub.gst_failure;
     Nix.abspath s := "/home/me/" +:+ s;
     Nix.pathname2url s := s |}.

(** An AppKit as [Stub.appkit] that can load no sound. *)
Definition appkit_no_sound : OSX.AppKit :=
  {| OSX.NSURL := string;
     OSX.NSSound := string;
     OSX.getcwd := "/Users/me";
     OSX.URLWithString_ s := Some s;
     OSX.initWithContentsOfURL_byReference_ _ _ := None;
     OSX.duration _ := 3 # 1 |}.

(** A GStreamer whose playbin starts its state change asynchronously. *)
Definition gst_async : Nix.Gst :=
  {| Nix.ElementFactory_make _ _ := true;
     Nix.set_state _ _ := Nix.ASYNC;
     Nix.bus_poll _ := true;
     Nix.repr := Nix.repr Stub.gst_failure;
     Nix.abspath s := "/home/me/" +:+ s;
     Nix.pathname2url s := s |}.

(** A GStreamer installation without the playbin plugin. *)
Definition gst_no_playbin : Nix.Gst :=
  {| Nix.ElementFactory_make _ _ := false;
     Nix.set_state _ _ := Nix.ASYNC;
     Nix.bus_poll _ := true;
     Nix.repr := Nix.repr Stub.gst_failure;
     Nix.abspath s := "/home/me/" +:+ s;
     Nix.pathname2url s := s |}.

End Scenario.

(** * Properties *)

(** ** Text *)

Lemma startswith_app (p s : string) : startswith p (p +:+ s) = true.
Proof.
  induction p as [|a p IH]; simpl.
  - reflexivity.
  - rewrite Ascii.eqb_refl. exact IH.
Qed.

Lemma contains_here (sub s : string) : contains sub (sub +:+ s) = true.
Proof.
  destruct (sub +:+ s) eqn:E; simpl; rewrite <- E, startswith_app; reflexivity.
Qed.

Lemma contains_later (sub a s : string) :
  contains sub s = true -> contains sub (a +:+ s) = true.
Proof.
  intros H. induction a as [|c a IH]; simpl.
  - exact H.
  - rewrite IH. apply orb_true_r.
Qed.

Lemma contains_self (s : string) : contains s s = true.
Proof.
  destruct s as [|a s]; simpl; [reflexivity|].
  rewrite Ascii.eqb_refl.
  replace (startswith s s) with true; [reflexivity|].
  symmetry. induction s as [|b s IH]; simpl; [reflexivity|].
  now rewrite Ascii.eqb_refl.
Qed.

(** ** The command-submission primitive *)

Section WinCommand.
Variable mci : Win.MCI.

Lemma winCommand_accepted (command : list string) (s : Win.playsoundWin)
    (t : list Win.event) :
  (Win.mciSendStringA mci t (join " " command)).1 = 0%Z ->
  Win.winCommand mci command s t
  = (Ret (Win.mciSendStringA mci t (join " " command)).2, s,
     t ++ [Win.Command (join " " command)]).
Proof.
  intros H. unfold Win.winCommand, bind, history, emit, ret, raise.
  destruct (Win.mciSendStringA mci t (join " " command)) as [code buf].
  simpl in H. subst code. reflexivity.
Qed.

Lemma winCommand_raises (command : list string) (s : Win.playsoundWin)
    (t : list Win.event) :
  (Win.mciSendStringA mci t (join " " command)).1 <> 0%Z ->
  Win.winCommand mci command s t
  = (Raise (Win.refusal mci (Win.mciSendStringA mci t (join " " command)).1
              (join " " command)),
     s, t ++ [Win.Command (join " " command)]).
Proof.
  intros H. unfold Win.winCommand, bind, history, emit, ret, raise, Win.refusal.
  destruct (Win.mciSendStringA mci t (join " " command)) as [code buf].
  simpl in *. destruct (Z.eqb_spec code 0) as [->|_]; [contradiction|].
  cbn [negb]. destruct (decode (Win.mciGetErrorStringA mci code)); reflexivity.
Qed.

Lemma winCommand_refused (command : list string) (s : Win.playsoundWin)
    (t : list Win.event) (description : string) :
  (Win.mciSendStringA mci t (join " " command)).1 <> 0%Z ->
  decode (Win.mciGetErrorStringA mci
            (Win.mciSendStringA mci t (join " " command)).1)
  = Some description ->
  Win.winCommand mci command s t
  = (Raise (PlaysoundException
              (Win.exceptionMessage
                 (Win.mciSendStringA mci t (join " " command)).1
                 (join " " command) description)),
     s, t ++ [Win.Command (join " " command)]).
Proof.
  intros H Hd. rewrite winCommand_raises by exact H.
  unfold Win.refusal. rewrite Hd. reflexivity.
Qed.

Lemma winCommand_undecodable (command : list string) (s : Win.playsoundWin)
    (t : list Win.event) :
  (Win.mciSendStringA mci t (join " " command)).1 <> 0%Z ->
  decode (Win.mciGetErrorStringA mci
            (Win.mciSendStringA mci t (join " " command)).1)
  = None ->
  Win.winCommand mci command s t
  = (Raise (UnicodeDecodeError "utf-8"), s,
     t ++ [Win.Command (join " " command)]).
Proof.
  intros H Hd. rewrite winCommand_raises by exact H.
  unfold Win.refusal. rewrite Hd. reflexivity.
Qed.

(** [winCommand] never changes the attributes, and records exactly the
    command it submits. *)
Lemma winCommand_frame (command : list string) (s : Win.playsoundWin)
    (t : list Win.event) :
  final (Win.winCommand mci command s t) = s /\
  trace (Win.winCommand mci command s t) = t ++ [Win.Command (join " " command)].
Proof.
  destruct (Z.eq_dec (Win.mciSendStringA mci t (join " " command)).1 0%Z) as [H|H].
  - rewrite winCommand_accepted by exact H. split; reflexivity.
  - rewrite winCommand_raises by exact H. split; reflexivity.
Qed.

End WinCommand.

Example utf8_accepts_and_refuses :
  let bytes := fold_right (fun n b => String (ascii_of_nat n) b) EmptyString in
  (utf8 "The specified device is not open." = true
   /\ utf8 (bytes [71; 101; 114; 195; 164; 116]) = true      (* UTF-8 a-umlaut *)
   /\ utf8 (bytes [226; 130; 172]) = true                     (* U+20AC *)
   /\ utf8 (bytes [240; 159; 152; 128]) = true)               (* U+1F600 *)
  /\ (utf8 (bytes [71; 101; 114; 228; 116]) = false          (* Windows-1252 *)
      /\ utf8 (bytes [192; 128]) = false                       (* overlong *)
      /\ utf8 (bytes [237; 160; 128]) = false                  (* surrogate *)
      /\ utf8 (bytes [244; 144; 128; 128]) = false             (* past U+10FFFF *)
      /\ utf8 (bytes [226; 130]) = false).                     (* cut short *)
Proof. cbv zeta. repeat split. Qed.

Lemma decode_utf8 (b : string) : utf8 b = true -> decode b = Some b.
Proof. intros H. unfold decode. rewrite H. reflexivity. Qed.

Lemma decode_inv (b description : string) :
  decode b = Some description -> description = b.
Proof. unfold decode. destruct (utf8 b); [now intros [= <-]|discriminate]. Qed.

(** C3. The claim fails on a description that is not UTF-8.  On a German
    system the subsystem describes error 263 in Windows-1252; [winCommand]
    then raises [UnicodeDecodeError] from [decode()] and no
    [PlaysoundException] is built.  The description does not decode, and
    the same refusal with an ASCII description raises what the claim
    says. *)
Theorem C3_winCommand_undecodable_description :
  decode Scenario.geraet = None
  /\ Win.winCommand Scenario.no_device_german ["stop"; Stub.player_alias]
       Stub.player []
     = (Raise (UnicodeDecodeError "utf-8"), Stub.player,
        [Win.Command "stop playsound_alias_1"])
  /\ Win.winCommand Stub.no_device ["stop"; Stub.player_alias] Stub.player []
     = (Raise (PlaysoundException
                 (Win.exceptionMessage 263 "stop playsound_alias_1"
                    "The specified device is not open or is not recognized by MCI.")),
        Stub.player, [Win.Command "stop playsound_alias_1"]).
Proof. repeat split. Qed.

(** X20. The error contract of [winCommand].  A command that returns a
    non-zero error code is never answered with a return.  When the bytes of
    its description are UTF-8, [winCommand] raises [PlaysoundException] and
    the message holds the decimal error code, the command text as submitted
    and the description; this holds for every non-zero code, 289 included.
    When they are not, it raises [UnicodeDecodeError] instead. *)
Theorem X20_winCommand_error_contract (mci : Win.MCI) (command : list string)
    (s : Win.playsoundWin) (t : list Win.event) :
  let text := join " " command in
  let errorCode := (Win.mciSendStringA mci t text).1 in
  let description := Win.mciGetErrorStringA mci errorCode in
  errorCode <> 0%Z ->
  (utf8 description = true ->
   exists msg,
     Win.winCommand mci command s t
     = (Raise (PlaysoundException msg), s, t ++ [Win.Command text])
     /\ contains (str errorCode) msg = true
     /\ contains text msg = true
     /\ contains description msg = true)
  /\ (utf8 description = false ->
      Win.winCommand mci command s t
      = (Raise (UnicodeDecodeError "utf-8"), s, t ++ [Win.Command text])).
Proof.
  intros text errorCode description H. split.
  - intros Hu. exists (Win.exceptionMessage errorCode text description).
    split; [apply winCommand_refused; [exact H|apply decode_utf8, Hu]|].
    unfold Win.exceptionMessage. repeat split.
    + do 2 apply contains_later. apply contains_here.
    + do 5 apply contains_later. apply contains_here.
    + do 8 apply contains_later. apply contains_self.
  - intros Hu. apply winCommand_undecodable; [exact H|].
    fold text errorCode description. unfold decode. rewrite Hu. reflexivity.
Qed.

Lemma X20_witness :
  exists msg,
    Win.winCommand Stub.no_device ["stop"; Stub.player_alias] Stub.player []
    = (Raise (PlaysoundException msg), Stub.player,
       [] ++ [Win.Command "stop playsound_alias_1"])
    /\ contains "263" msg = true
    /\ contains "stop playsound_alias_1" msg = true
    /\ contains "The specified device is not open or is not recognized by MCI." msg
       = true.
Proof.
  refine (proj1 (X20_winCommand_error_contract Stub.no_device
                   ["stop"; Stub.player_alias] Stub.player [] _) _).
  - vm_compute. discriminate.
  - reflexivity.
Defined.

(** ** The polling loop *)

Section PollingLoop.
Variable mci : Win.MCI.

Lemma get_status_accepted (s : Win.playsoundWin) (t : list Win.event) :
  (Win.mciSendStringA mci t (Win.status_text (Win.alias s))).1 = 0%Z ->
  Win.get_status mci s t
  = (Ret (Win.mciSendStringA mci t (Win.status_text (Win.alias s))).2, s,
     t ++ [Win.Command (Win.status_text (Win.alias s))]).
Proof.
  intros H. unfold Win.get_status, bind, self.
  apply (winCommand_accepted mci ["status"; Win.alias s; "mode"]). exact H.
Qed.

(** One round: sleep, query, leave on [stopped] and on nothing else. *)
Lemma manage_block_loop_round (fuel : nat) (s : Win.playsoundWin)
    (t : list Win.event) :
  let t1 := t ++ [Win.Sleep Win.poll_interval] in
  let reply := Win.mciSendStringA mci t1 (Win.status_text (Win.alias s)) in
  reply.1 = 0%Z ->
  Win.manage_block_loop mci (S fuel) s t
  = if String.eqb reply.2 "stopped"
    then (Ret tt, s, Win.poll_trace (Win.alias s) t 1)
    else Win.manage_block_loop mci fuel s (Win.poll_trace (Win.alias s) t 1).
Proof.
  intros t1 reply H. simpl Win.manage_block_loop.
  unfold bind at 1. unfold emit at 1. unfold bind at 1.
  fold t1. rewrite (get_status_accepted s t1 H). fold reply.
  destruct (String.eqb reply.2 "stopped"); reflexivity.
Qed.

Lemma manage_block_loop_unfold (fuel : nat) (s : Win.playsoundWin)
    (t : list Win.event) :
  Win.manage_block_loop mci (S fuel) s t
  = match Win.winCommand mci ["status"; Win.alias s; "mode"] s
            (t ++ [Win.Sleep Win.poll_interval]) with
    | (Ret status, s', t') =>
        if String.eqb status "stopped" then (Ret tt, s', t')
        else Win.manage_block_loop mci fuel s' t'
    | (Raise e, s', t') => (Raise e, s', t')
    | (OutOfFuel, s', t') => (OutOfFuel, s', t')
    end.
Proof.
  simpl Win.manage_block_loop. unfold Win.get_status, bind, emit, self.
  destruct (Win.winCommand mci ["status"; Win.alias s; "mode"] s
              (t ++ [Win.Sleep Win.poll_interval])) as [[[status|e|] s'] t'];
    try reflexivity.
  destruct (String.eqb status "stopped"); reflexivity.
Qed.

(** The loop assigns no attribute. *)
Lemma manage_block_loop_final (fuel : nat) (s : Win.playsoundWin)
    (t : list Win.event) :
  final (Win.manage_block_loop mci fuel s t) = s.
Proof.
  revert t. induction fuel as [|fuel IH]; intros t; [reflexivity|].
  rewrite manage_block_loop_unfold.
  destruct (winCommand_frame mci ["status"; Win.alias s; "mode"] s
              (t ++ [Win.Sleep Win.poll_interval])) as [Hs _].
  destruct (Win.winCommand mci ["status"; Win.alias s; "mode"] s
              (t ++ [Win.Sleep Win.poll_interval])) as [[o s'] t'].
  unfold final in Hs. simpl in Hs. subst s'.
  destruct o as [status|e|]; try reflexivity.
  destruct (String.eqb status "stopped"); [reflexivity|apply IH].
Qed.


(** [close_alias] swallows whatever the close command raises. *)
Lemma close_alias_swallows (s : Win.playsoundWin) (t : list Win.event) :
  Win.close_alias mci s t
  = (Ret tt, s, t ++ [Win.Command (join " " ["close"; Win.alias s])]).
Proof.
  unfold Win.close_alias, try_except, bind, self.
  destruct (Z.eq_dec (Win.mciSendStringA mci t (join " " ["close"; Win.alias s])).1 0%Z)
    as [H|H].
  - rewrite (winCommand_accepted mci ["close"; Win.alias s] s t H). reflexivity.
  - rewrite (winCommand_raises mci ["close"; Win.alias s] s t H). reflexivity.
Qed.

(** The error raised for code 289 is the one [play] tolerates. *)
Lemma duplicate_alias_recognised (command errorBuffer : string) :
  contains Win.mcierr_duplicate_alias
    (Win.exceptionMessage 289 command errorBuffer) = true.
Proof. reflexivity. Qed.

(** [play] up to the polling loop, when the close command may fail, the
    open command is accepted or refused with 289, and the play command is
    accepted. *)
Lemma play_prefix (fuel : nat) (sound : string) (block : bool)
    (alias_arg : option string) (s : Win.playsoundWin) (t : list Win.event) :
  let a := Win.play_alias alias_arg s in
  let t1 := t ++ [Win.Command (join " " ["close"; a])] in
  let t2 := t1 ++ [Win.Command (join " " (Win.open_command sound a))] in
  ((Win.mciSendStringA mci t1 (join " " (Win.open_command sound a))).1 = 0%Z \/
   ((Win.mciSendStringA mci t1 (join " " (Win.open_command sound a))).1 = 289%Z
    /\ utf8 (Win.mciGetErrorStringA mci 289) = true)) ->
  (Win.mciSendStringA mci t2 (join " " ["play"; a])).1 = 0%Z ->
  Win.play mci fuel sound block alias_arg s t
  = if block
    then Win.manage_block_loop mci fuel
           (Win.block_self (Win.play_self alias_arg s))
           (Win.play_entry sound a t)
    else (Ret tt, Win.play_self alias_arg s, Win.play_entry sound a t).
Proof.
  intros a t1 t2 Hopen Hplay.
  assert (Ha : Win.alias (Win.play_self alias_arg s) = a).
  { unfold a, Win.play_alias, Win.play_self.
    destruct (Win.truthy alias_arg); reflexivity. }
  unfold Win.play. unfold bind at 1.
  replace ((match Win.truthy alias_arg with
            | Some a0 => assign (Win.set_alias a0)
            | None => ret tt
            end) s t)
    with (Ret tt, Win.play_self alias_arg s, t)
    by (unfold Win.play_self; destruct (Win.truthy alias_arg); reflexivity).
  set (s1 := Win.play_self alias_arg s) in *.
  unfold bind at 1.
  assert (Hclose : Win.close_alias mci s1 t = (Ret tt, s1, t1)).
  { rewrite close_alias_swallows, Ha. reflexivity. }
  rewrite Hclose. unfold bind at 1.
  assert (Hop : try_except
                  (bind self (fun s0 =>
                     bind (Win.winCommand mci (Win.open_command sound (Win.alias s0)))
                          (fun _ => ret tt)))
                  (fun e =>
                     match e with
                     | PlaysoundException msg =>
                         if negb (contains Win.mcierr_duplicate_alias msg)
                         then raise e else ret tt
                     | _ => raise e
                     end) s1 t1
                = (Ret tt, s1, t2)).
  { unfold try_except, bind at 1, self. rewrite Ha. unfold bind.
    destruct Hopen as [H|[H Hu]].
    - rewrite (winCommand_accepted mci (Win.open_command sound a) s1 t1 H).
      reflexivity.
    - rewrite (winCommand_refused mci (Win.open_command sound a) s1 t1
                 (Win.mciGetErrorStringA mci 289))
        by (rewrite H; first [discriminate|apply decode_utf8, Hu]).
      rewrite H. rewrite duplicate_alias_recognised. reflexivity. }
  rewrite Hop. unfold bind at 1, self. rewrite Ha. unfold bind at 1.
  rewrite (winCommand_accepted mci ["play"; a] s1 t2 Hplay).
  destruct block; reflexivity.
Qed.

End PollingLoop.

(** ** Duplicate-alias tolerance *)

Section DuplicateAlias.
Variable mci : Win.MCI.


Lemma play_alias_kept (alias_arg : option string) (s : Win.playsoundWin) :
  Win.alias (Win.block_self (Win.play_self alias_arg s))
  = Win.play_alias alias_arg s.
Proof.
  unfold Win.play_alias, Win.play_self. destruct (Win.truthy alias_arg); reflexivity.
Qed.

Lemma close_is_not_open (sound a : string) :
  join " " ["close"; a] <> join " " (Win.open_command sound a).
Proof. discriminate. Qed.



End DuplicateAlias.

(** C2. The claim fails on a description that is not UTF-8.  On a German
    system the subsystem describes error 289 in Windows-1252; with the open
    command refused with 289 and every other command accepted, [decode()]
    raises [UnicodeDecodeError] inside [winCommand], the handler for
    [PlaysoundException] in [play] does not catch it, and [play] raises it
    to the caller after the close and the open command, without submitting
    the play command. *)
Theorem C2_duplicate_alias_undecodable :
  let mci := Scenario.duplicate_alias_german Stub.open_song in
  (forall h, (Win.mciSendStringA mci h Stub.open_song).1 = 289%Z)
  /\ decode (Win.mciGetErrorStringA mci 289) = None
  /\ (forall fuel block,
        Win.play mci fuel "song.mp3" block None Stub.player []
        = (Raise (UnicodeDecodeError "utf-8"), Stub.player,
           [Win.Command "close playsound_alias_1"; Win.Command Stub.open_song])).
Proof.
  cbv zeta. split; [|split].
  - intros h. reflexivity.
  - reflexivity.
  - intros fuel block. vm_compute. reflexivity.
Qed.



(** [play] tells the duplicate alias by the text of the message, which also
    holds the command: an open refused with another code surfaces for an
    ordinary file name and is swallowed when the name holds the marker. *)
Lemma play_tolerates_by_message_text :
  result (Win.play Stub.open_refused 0 "song.mp3" false None Stub.player [])
  = Raise (PlaysoundException
             (Win.exceptionMessage 263 Stub.open_song
                "The specified device is not open or is not recognized by MCI."))
  /\ result (Win.play Stub.open_refused 0 "Error 289 for command.mp3" false None
               Stub.player [])
     = Ret tt.
Proof. split; vm_compute; reflexivity. Qed.

(** ** Counting polls and sleeps *)

Lemma polls_app (a : string) (t1 t2 : list Win.event) :
  Win.polls a (t1 ++ t2) = (Win.polls a t1 + Win.polls a t2)%nat.
Proof. unfold Win.polls. rewrite List.filter_app, List.length_app. reflexivity. Qed.

Lemma sleeps_app (t1 t2 : list Win.event) :
  Win.sleeps (t1 ++ t2) = (Win.sleeps t1 + Win.sleeps t2)%nat.
Proof. unfold Win.sleeps. rewrite List.filter_app, List.length_app. reflexivity. Qed.

Lemma polls_status (a : string) :
  Win.polls a [Win.Command (Win.status_text a)] = 1%nat.
Proof. unfold Win.polls. simpl. rewrite String.eqb_refl. reflexivity. Qed.

Lemma polls_poll_trace (a : string) (k : nat) :
  forall t, Win.polls a (Win.poll_trace a t k) = (Win.polls a t + k)%nat.
Proof.
  induction k as [|k IH]; intros t; cbn [Win.poll_trace].
  - lia.
  - rewrite IH, !polls_app, polls_status.
    change (Win.polls a [Win.Sleep Win.poll_interval]) with 0%nat. lia.
Qed.

Lemma sleeps_poll_trace (a : string) (k : nat) :
  forall t, Win.sleeps (Win.poll_trace a t k) = (Win.sleeps t + k)%nat.
Proof.
  induction k as [|k IH]; intros t; cbn [Win.poll_trace].
  - lia.
  - rewrite IH, !sleeps_app.
    change (Win.sleeps [Win.Sleep Win.poll_interval]) with 1%nat.
    change (Win.sleeps [Win.Command (Win.status_text a)]) with 0%nat. lia.
Qed.

Lemma polls_play_entry (sound a : string) (t : list Win.event) :
  Win.polls a (Win.play_entry sound a t) = Win.polls a t.
Proof.
  unfold Win.play_entry. rewrite !polls_app.
  change (Win.polls a [Win.Command (join " " ["close"; a])]) with 0%nat.
  change (Win.polls a [Win.Command (join " " (Win.open_command sound a))]) with 0%nat.
  change (Win.polls a [Win.Command (join " " ["play"; a])]) with 0%nat.
  lia.
Qed.

Lemma sleeps_play_entry (sound a : string) (t : list Win.event) :
  Win.sleeps (Win.play_entry sound a t) = Win.sleeps t.
Proof.
  unfold Win.play_entry. rewrite !sleeps_app.
  change (Win.sleeps [Win.Command (join " " ["close"; a])]) with 0%nat.
  change (Win.sleeps [Win.Command (join " " (Win.open_command sound a))]) with 0%nat.
  change (Win.sleeps [Win.Command (join " " ["play"; a])]) with 0%nat.
  lia.
Qed.

(** ** A sound that reads playing for two polls *)

Section PlayingTwice.
Variable mci : Win.MCI.
Variable s : Win.playsoundWin.
Hypothesis accepted : forall h c, (Win.mciSendStringA mci h c).1 = 0%Z.
Hypothesis status :
  forall h,
    (Win.mciSendStringA mci h (Win.status_text (Win.alias s))).2
    = if (Win.polls (Win.alias s) h <? 2)%nat then "playing" else "stopped".

Lemma round_reply (t : list Win.event) (k : nat) :
  (Win.mciSendStringA mci
     (Win.poll_trace (Win.alias s) t k ++ [Win.Sleep Win.poll_interval])
     (Win.status_text (Win.alias s))).2
  = if (Win.polls (Win.alias s) t + k <? 2)%nat then "playing" else "stopped".
Proof.
  rewrite status, polls_app, polls_poll_trace.
  change (Win.polls (Win.alias s) [Win.Sleep Win.poll_interval]) with 0%nat.
  rewrite Nat.add_0_r. reflexivity.
Qed.

(** From a trace without earlier polls the loop is still running after one
    and after two rounds and returns in the third. *)
Lemma manage_block_loop_playing_twice (t : list Win.event) (fuel : nat) :
  Win.polls (Win.alias s) t = 0%nat ->
  Win.manage_block_loop mci fuel s t
  = if (fuel <? 3)%nat
    then (OutOfFuel, s, Win.poll_trace (Win.alias s) t fuel)
    else (Ret tt, s, Win.poll_trace (Win.alias s) t 3).
Proof.
  intros Hpolls.
  pose proof (round_reply t 0) as R0.
  pose proof (round_reply t 1) as R1.
  pose proof (round_reply t 2) as R2.
  rewrite Hpolls in R0, R1, R2. simpl in R0, R1, R2.
  destruct fuel as [|[|[|fuel]]]; try reflexivity;
    rewrite manage_block_loop_round by apply accepted;
    simpl Win.poll_trace; rewrite R0;
    change (String.eqb "playing" "stopped") with false; cbv iota;
    try reflexivity;
    rewrite manage_block_loop_round by apply accepted;
    simpl Win.poll_trace; rewrite R1;
    change (String.eqb "playing" "stopped") with false; cbv iota;
    try reflexivity;
    rewrite manage_block_loop_round by apply accepted;
    simpl Win.poll_trace; rewrite R2; reflexivity.
Qed.

End PlayingTwice.

(** C8, as the code has it. When every command is accepted and the status
    query reads playing for the first two polls and stopped from the third
    on, a blocking [play] returns after exactly three poll intervals: it
    sleeps before each of its three polls, is still in the loop after one
    and after two rounds, and leaves it in the third. *)
Theorem C8_three_poll_intervals (mci : Win.MCI) (sound : string)
    (alias_arg : option string) (s : Win.playsoundWin) (t : list Win.event) :
  let a := Win.play_alias alias_arg s in
  (forall h c, (Win.mciSendStringA mci h c).1 = 0%Z) ->
  (forall h,
     (Win.mciSendStringA mci h (Win.status_text a)).2
     = if (Win.polls a h <? 2)%nat then "playing" else "stopped") ->
  Win.polls a t = 0%nat ->
  (forall fuel, (3 <= fuel)%nat ->
     Win.play mci fuel sound true alias_arg s t
     = (Ret tt, Win.block_self (Win.play_self alias_arg s),
        Win.poll_trace a (Win.play_entry sound a t) 3))
  /\ Win.sleeps (Win.poll_trace a (Win.play_entry sound a t) 3)
     = (Win.sleeps t + 3)%nat
  /\ (forall fuel, (fuel < 3)%nat ->
        result (Win.play mci fuel sound true alias_arg s t) = OutOfFuel).
Proof.
  intros a Hok Hstatus Hpolls.
  assert (Hrun : forall fuel,
             Win.play mci fuel sound true alias_arg s t
             = if (fuel <? 3)%nat
               then (OutOfFuel, Win.block_self (Win.play_self alias_arg s),
                     Win.poll_trace a (Win.play_entry sound a t) fuel)
               else (Ret tt, Win.block_self (Win.play_self alias_arg s),
                     Win.poll_trace a (Win.play_entry sound a t) 3)).
  { intros fuel.
    rewrite play_prefix by (try left; apply Hok).
    rewrite manage_block_loop_playing_twice; rewrite ?play_alias_kept.
    - reflexivity.
    - exact Hok.
    - exact Hstatus.
    - fold a. rewrite polls_play_entry. exact Hpolls. }
  split; [|split].
  - intros fuel Hfuel. rewrite Hrun.
    destruct (Nat.ltb_spec fuel 3); [lia|reflexivity].
  - rewrite sleeps_poll_trace, sleeps_play_entry. reflexivity.
  - intros fuel Hfuel. rewrite Hrun.
    destruct (Nat.ltb_spec fuel 3); [reflexivity|lia].
Qed.

Lemma C8_witness :
  Win.play (Stub.playing_twice Stub.player_alias) 3 "song.mp3" true None
    Stub.player []
  = (Ret tt, Win.block_self Stub.player,
     Win.poll_trace Stub.player_alias
       (Win.play_entry "song.mp3" Stub.player_alias []) 3).
Proof.
  refine (proj1
            (C8_three_poll_intervals (Stub.playing_twice Stub.player_alias)
               "song.mp3" None Stub.player [] _ _ _) 3%nat _).
  - intros h c. simpl.
    destruct (String.eqb c (Win.status_text Stub.player_alias)); reflexivity.
  - intros h. reflexivity.
  - reflexivity.
  - lia.
Defined.

(** C8 as the spec words it fails on the stub of its own scenario: after two
    poll intervals [play] is still inside the loop, and the run that returns
    has slept three times.  No amount of fuel gives a return after two
    sleeps. *)
Lemma C8_counterexample :
  let run fuel :=
    Win.play (Stub.playing_twice Stub.player_alias) fuel "song.mp3" true None
      Stub.player [] in
  (result (run 2%nat) = OutOfFuel /\ Win.sleeps (trace (run 2%nat)) = 2%nat)
  /\ (result (run 3%nat) = Ret tt /\ Win.sleeps (trace (run 3%nat)) = 3%nat)
  /\ ~ (exists fuel, result (run fuel) = Ret tt /\ Win.sleeps (trace (run fuel)) = 2%nat).
Proof.
  cbv zeta. split; [|split].
  - split; vm_compute; reflexivity.
  - split; vm_compute; reflexivity.
  - intros [fuel [Hret Hsleeps]].
    destruct fuel as [|[|[|fuel]]]; vm_compute in Hret, Hsleeps; discriminate.
Qed.

(** ** The stop flag *)

Section StopFlag.
Variable mci : Win.MCI.



Lemma _manage_block_final (fuel : nat) (s : Win.playsoundWin)
    (t : list Win.event) :
  final (Win._manage_block mci fuel s t) = Win.block_self s.
Proof.
  change (Win._manage_block mci fuel s t)
    with (Win.manage_block_loop mci fuel (Win.block_self s) t).
  apply manage_block_loop_final.
Qed.

Lemma stop_sets_flag (s : Win.playsoundWin) (t : list Win.event) :
  final (Win.stop mci s t) = Win.set_stop_sound true s
  /\ trace (Win.stop mci s t) = t ++ [Win.Command (join " " ["stop"; Win.alias s])].
Proof.
  unfold Win.stop, Win.stop_audio, bind, assign, self.
  change (Win.alias (Win.set_stop_sound true s)) with (Win.alias s).
  destruct (winCommand_frame mci ["stop"; Win.alias s] (Win.set_stop_sound true s) t)
    as [Hs Ht].
  destruct (Win.winCommand mci ["stop"; Win.alias s] (Win.set_stop_sound true s) t)
    as [[[buf|e|] s'] t']; unfold final, trace in *; simpl in *; subst; split; reflexivity.
Qed.

End StopFlag.




(** ** The rebinding of [pause_audio] *)

Section PauseAudio.
Variable mci : Win.MCI.

Lemma keeps_ret {A} (a : A) : Win.keeps (ret a).
Proof. intros s t H. exact H. Qed.

Lemma keeps_raise {A} (e : exn) : Win.keeps (raise (A:=A) e).
Proof. intros s t H. exact H. Qed.

Lemma keeps_self : Win.keeps self.
Proof. intros s t H. exact H. Qed.

Lemma keeps_assign (f : Win.playsoundWin -> Win.playsoundWin) :
  (forall s, Win.pause_audio (f s) = Win.pause_audio s) -> Win.keeps (assign f).
Proof. intros Hf s t H. unfold Win.rebound, final, assign. simpl. now rewrite Hf. Qed.

Lemma keeps_bind {A B} (c : M A) (k : A -> M B) :
  Win.keeps c -> (forall a, Win.keeps (k a)) -> Win.keeps (bind c k).
Proof.
  intros Hc Hk s t H. specialize (Hc s t H). unfold bind.
  destruct (c s t) as [[[a|e|] s'] t']; [apply Hk|..]; exact Hc.
Qed.

Lemma keeps_try_except {A} (c : M A) (handler : exn -> M A) :
  Win.keeps c -> (forall e, Win.keeps (handler e)) -> Win.keeps (try_except c handler).
Proof.
  intros Hc Hh s t H. specialize (Hc s t H). unfold try_except.
  destruct (c s t) as [[[a|e|] s'] t']; [|apply Hh|]; exact Hc.
Qed.

Lemma keeps_winCommand (command : list string) :
  Win.keeps (Win.winCommand mci command).
Proof.
  intros s t H. destruct (winCommand_frame mci command s t) as [-> _]. exact H.
Qed.

Lemma keeps_manage_block_loop (fuel : nat) :
  Win.keeps (Win.manage_block_loop mci fuel).
Proof. intros s t H. rewrite manage_block_loop_final. exact H. Qed.

Lemma keeps__manage_block (fuel : nat) : Win.keeps (Win._manage_block mci fuel).
Proof. intros s t _. rewrite _manage_block_final. reflexivity. Qed.

Lemma rebinds__manage_block (fuel : nat) : Win.rebinds (Win._manage_block mci fuel).
Proof. intros s t _. rewrite _manage_block_final. reflexivity. Qed.

Lemma rebinds_bind {A B} (c : M A) (k : A -> M B) :
  (forall a, Win.rebinds (k a)) -> Win.rebinds (bind c k).
Proof.
  intros Hk s t. unfold bind.
  destruct (c s t) as [[[a|e|] s'] t']; [apply Hk|discriminate..].
Qed.

Create HintDb keeps.
Hint Resolve keeps_ret keeps_raise keeps_self keeps_winCommand
  keeps_manage_block_loop keeps__manage_block : keeps.

Ltac keeps_step :=
  first
    [ solve [auto with keeps]
    | apply keeps_bind; [|intros ?]
    | apply keeps_try_except; [|intros ?]
    | apply keeps_assign; intros ?; reflexivity
    | match goal with |- Win.keeps (if ?b then _ else _) => destruct b end
    | match goal with |- Win.keeps (match ?x with _ => _ end) => destruct x end ].

Lemma keeps_invoke (fuel : nat) (c : Win.call) : Win.keeps (Win.invoke mci fuel c).
Proof.
  destruct c as [sound block alias_arg| | |block]; simpl.
  - unfold Win.play, Win.close_alias. repeat keeps_step.
  - unfold Win.stop, Win.stop_audio. repeat keeps_step.
  - unfold Win.pause, Win.pause_audio_method. repeat keeps_step.
  - unfold Win.resume, Win.get_status, Win.resume_audio. repeat keeps_step.
Qed.

Lemma rebound_session (fuel : nat) (cs : list Win.call) :
  forall s t, Win.rebound s -> Win.rebound (Win.session mci fuel cs s t).1.
Proof.
  induction cs as [|c cs IH]; intros s t H; simpl; [exact H|].
  apply IH, keeps_invoke, H.
Qed.

Lemma pause_not_callable (s : Win.playsoundWin) (t : list Win.event) :
  Win.rebound s ->
  Win.pause mci s t
  = (Raise (TypeError (NotCallable "bool")), Win.set_pause_sound true s, t).
Proof.
  intros H. unfold Win.pause, bind, assign, self. simpl.
  unfold Win.rebound in H. rewrite H. reflexivity.
Qed.

Lemma rebinds_play (fuel : nat) (sound : string) (alias_arg : option string) :
  Win.rebinds (Win.play mci fuel sound true alias_arg).
Proof.
  unfold Win.play. do 3 (apply rebinds_bind; intros ?).
  apply rebinds_bind; intros ?. apply rebinds_bind; intros ?.
  apply rebinds__manage_block.
Qed.

(** A blocking [resume] that returns has entered the polling loop exactly
    when its status query read [paused]. *)
Lemma resume_rebinds_when_paused (fuel : nat) (s : Win.playsoundWin)
    (t : list Win.event) :
  returns (result (Win.resume mci fuel true s t)) = true ->
  if String.eqb (Win.mciSendStringA mci t (Win.status_text (Win.alias s))).2 "paused"
  then Win.rebound (final (Win.resume mci fuel true s t))
  else Win.resume mci fuel true s t
       = (Ret tt, Win.set_pause_sound false s,
          t ++ [Win.Command (Win.status_text (Win.alias s))]).
Proof.
  set (s1 := Win.set_pause_sound false s).
  assert (E : Win.resume mci fuel true s t
              = match Win.get_status mci s1 t with
                | (Ret status, s', t') =>
                    if String.eqb status "paused"
                    then bind (Win.resume_audio mci)
                           (fun _ => Win._manage_block mci fuel) s' t'
                    else (Ret tt, s', t')
                | (Raise e, s', t') => (Raise e, s', t')
                | (OutOfFuel, s', t') => (OutOfFuel, s', t')
                end).
  { unfold Win.resume, bind at 1, assign. fold s1. unfold bind at 1.
    destruct (Win.get_status mci s1 t) as [[[status|e|] s'] t']; try reflexivity.
    destruct (String.eqb status "paused"); reflexivity. }
  rewrite E. clear E.
  destruct (Z.eq_dec (Win.mciSendStringA mci t (Win.status_text (Win.alias s))).1 0%Z)
    as [H|H].
  - rewrite (get_status_accepted mci s1 t H).
    change (Win.alias s1) with (Win.alias s).
    destruct (String.eqb _ "paused"); [|reflexivity].
    apply (rebinds_bind (Win.resume_audio mci)
             (fun _ => Win._manage_block mci fuel)).
    intros _. apply rebinds__manage_block.
  - unfold Win.get_status, bind at 1, self.
    rewrite (winCommand_raises mci ["status"; Win.alias s1; "mode"] s1 t H).
    discriminate.
Qed.

End PauseAudio.

Example resume_from_paused_rebinds :
  let resumed := Win.resume Stub.paused_then_stopped 3 true Stub.player [] in
  result resumed = Ret tt
  /\ Win.pause_audio (final resumed) = Some false
  /\ trace resumed
     = [Win.Command "status playsound_alias_1 mode";
        Win.Command "resume playsound_alias_1";
        Win.Sleep Win.poll_interval;
        Win.Command "status playsound_alias_1 mode"].
Proof. cbv zeta. repeat split. Qed.

(** C9, as the code has it.  A blocking [play] that returns has bound
    [pause_audio] to [False] on the instance.  A blocking [resume] that
    returns has done so exactly when its status query read [paused];
    otherwise it has only cleared [pause_sound].  Once the name is rebound
    it stays rebound through any later calls, and every later [pause] sets
    [pause_sound] and then raises [TypeError]: a bool is not callable. *)
Theorem C9_pause_not_callable_after_blocking (mci : Win.MCI) (fuel : nat)
    (s : Win.playsoundWin) (t : list Win.event) :
  (forall sound alias_arg,
     returns (result (Win.play mci fuel sound true alias_arg s t)) = true ->
     Win.rebound (final (Win.play mci fuel sound true alias_arg s t)))
  /\ (returns (result (Win.resume mci fuel true s t)) = true ->
      if String.eqb (Win.mciSendStringA mci t (Win.status_text (Win.alias s))).2
           "paused"
      then Win.rebound (final (Win.resume mci fuel true s t))
      else Win.resume mci fuel true s t
           = (Ret tt, Win.set_pause_sound false s,
              t ++ [Win.Command (Win.status_text (Win.alias s))]))
  /\ (Win.rebound s ->
      forall fuel' calls,
        let later := Win.session mci fuel' calls s t in
        Win.rebound later.1
        /\ Win.pause mci later.1 later.2
           = (Raise (TypeError (NotCallable "bool")),
              Win.set_pause_sound true later.1, later.2)).
Proof.
  split; [|split].
  - intros sound alias_arg. apply rebinds_play.
  - apply resume_rebinds_when_paused.
  - intros H fuel' calls later.
    assert (Hlater : Win.rebound later.1) by (apply rebound_session, H).
    split; [exact Hlater|]. apply pause_not_callable, Hlater.
Qed.

Lemma C9_witness :
  let after_play :=
    Win.play (Stub.playing_twice Stub.player_alias) 3 "song.mp3" true None
      Stub.player [] in
  Win.rebound (final after_play)
  /\ result (Win.pause (Stub.playing_twice Stub.player_alias)
               (final after_play) (trace after_play))
     = Raise (TypeError (NotCallable "bool")).
Proof.
  cbv zeta.
  assert (H : Win.rebound
                (final (Win.play (Stub.playing_twice Stub.player_alias) 3
                          "song.mp3" true None Stub.player []))).
  { apply (proj1 (C9_pause_not_callable_after_blocking
                    (Stub.playing_twice Stub.player_alias) 3 Stub.player [])
             "song.mp3" None).
    vm_compute. reflexivity. }
  split; [exact H|].
  destruct (proj2 (proj2 (C9_pause_not_callable_after_blocking
                            (Stub.playing_twice Stub.player_alias) 3
                            (final (Win.play (Stub.playing_twice Stub.player_alias) 3
                                      "song.mp3" true None Stub.player []))
                            (trace (Win.play (Stub.playing_twice Stub.player_alias) 3
                                      "song.mp3" true None Stub.player []))))
             H 3%nat []) as [_ E].
  exact (f_equal (fun r => r.1.1) E).
Defined.

(** C9 as worded fails for [resume]: on a fresh instance whose status reads
    playing, a blocking [resume] returns without entering the polling loop,
    [pause_audio] is still the method of the class, and the next [pause]
    submits its command and returns. *)
Lemma C9_counterexample :
  let resumed := Win.resume Stub.always_playing 3 true Stub.player [] in
  result resumed = Ret tt
  /\ Win.pause_audio (final resumed) = None
  /\ Win.pause Stub.always_playing (final resumed) (trace resumed)
     = (Ret tt, Win.set_pause_sound true Stub.player,
        [Win.Command "status playsound_alias_1 mode";
         Win.Command "pause playsound_alias_1"]).
Proof. cbv zeta. repeat split. Qed.

(** ** The Native-Object backend *)

(** C4. For a sound reference without [://] that does not start with [/],
    [play] hands [URLWithString_] exactly
    [file://] + working directory + [/] + the reference, and passes the URL
    made from it to the NSSound initialiser; these are its first two native
    calls, whatever happens after them. *)
Theorem C4_relative_path_url (w : OSX.AppKit) (sound : string) (block : bool)
    (s : OSX.playsoundOSX w) (t : list (OSX.event w)) :
  contains "://" sound = false ->
  startswith "/" sound = false ->
  let url := "file://" +:+ OSX.getcwd w +:+ "/" +:+ sound in
  OSX.normalize w sound = url
  /\ exists rest,
       trace (OSX.play w sound block s t)
       = t ++ [OSX.Call_URLWithString url;
               OSX.Call_initWithContentsOfURL (OSX.URLWithString_ w url) true]
           ++ rest.
Proof.
  intros Hscheme Hslash url.
  assert (Hurl : OSX.normalize w sound = url).
  { unfold OSX.normalize. rewrite Hscheme, Hslash. reflexivity. }
  split; [exact Hurl|].
  unfold OSX.play. rewrite Hurl.
  unfold bind, emit, assign, self, raise, ret, trace. simpl.
  destruct (OSX.initWithContentsOfURL_byReference_ w (OSX.URLWithString_ w url) true)
    as [snd|]; [destruct block|]; simpl; rewrite <- ?app_assoc; simpl;
    eexists; reflexivity.
Qed.

Lemma C4_witness :
  OSX.normalize Stub.appkit "sounds/a.mp3" = "file:///Users/me/sounds/a.mp3"
  /\ exists rest,
       trace (OSX.play Stub.appkit "sounds/a.mp3" true (OSX.__init__ Stub.appkit) [])
       = [] ++ [OSX.Call_URLWithString "file:///Users/me/sounds/a.mp3";
                OSX.Call_initWithContentsOfURL
                  (OSX.URLWithString_ Stub.appkit "file:///Users/me/sounds/a.mp3")
                  true]
            ++ rest.
Proof.
  apply (C4_relative_path_url Stub.appkit "sounds/a.mp3" true
           (OSX.__init__ Stub.appkit) []); reflexivity.
Defined.

(** ** The Pipeline backend *)

(** C5. [play] with [block=False] raises [NotImplementedError] and records
    no call into GStreamer: the trace is the one it was entered with. *)
Theorem C5_nonblocking_unimplemented (gst : Nix.Gst) (sound : string)
    (s : Nix.playsoundNix) (t : list Nix.event) :
  Nix.play gst sound false s t
  = (Raise (NotImplementedError "block=False cannot be used on this platform yet"),
     s, t).
Proof. reflexivity. Qed.

(** C6. When [play] reaches its request for the state [PLAYING] (it blocks,
    and the factory gave a playbin) and the answer is anything but [ASYNC],
    it raises [PlaysoundException] whose message ends in [repr] of the
    answer.  The calls it has made stop at that request: no bus is fetched
    or polled, and the state [NULL] is not requested. *)
Theorem C6_unexpected_state_change (gst : Nix.Gst) (sound : string)
    (s : Nix.playsoundNix) (t : list Nix.event) :
  Nix.ElementFactory_make gst "playbin" "playbin" = true ->
  let set_result := Nix.set_state gst (t ++ Nix.before_set_state gst sound) Nix.PLAYING in
  set_result <> Nix.ASYNC ->
  Nix.play gst sound true s t
  = (Raise (PlaysoundException
              ("playbin.set_state returned " +:+ Nix.repr gst set_result)),
     s, t ++ Nix.before_set_state gst sound ++ [Nix.Call_set_state Nix.PLAYING])
  /\ ~ In Nix.Call_bus_poll
         (Nix.before_set_state gst sound ++ [Nix.Call_set_state Nix.PLAYING]).
Proof.
  intros Hmake set_result Hresult. split.
  - unfold Nix.play. cbn [negb].
    unfold bind, emit, history, raise. rewrite Hmake. cbn [negb].
    fold (Nix.uri gst sound).
    replace (((t ++ [Nix.Call_Gst_init])
                ++ [Nix.Call_ElementFactory_make "playbin" "playbin"])
               ++ [Nix.Call_set_uri (Nix.uri gst sound)])
      with (t ++ Nix.before_set_state gst sound)
      by (unfold Nix.before_set_state; rewrite <- !app_assoc; reflexivity).
    fold set_result.
    destruct set_result; try contradiction; cbn;
      rewrite <- !app_assoc; reflexivity.
  - unfold Nix.before_set_state. simpl.
    intros [H|[H|[H|[H|[]]]]]; discriminate H.
Qed.

Lemma C6_witness :
  Nix.play Stub.gst_failure "a.mp3" true tt []
  = (Raise (PlaysoundException
              ("playbin.set_state returned "
               +:+ "<enum GST_STATE_CHANGE_FAILURE of type Gst.StateChangeReturn>")),
     tt,
     [] ++ Nix.before_set_state Stub.gst_failure "a.mp3"
        ++ [Nix.Call_set_state Nix.PLAYING]).
Proof.
  refine (proj1 (C6_unexpected_state_change Stub.gst_failure "a.mp3" tt [] _ _)).
  - reflexivity.
  - discriminate.
Defined.

(** ** Instantiating the backends *)

Lemma playsoundWin_concrete : Abc.abstractmethods Abc.playsoundWin = ∅.
Proof. vm_compute. reflexivity. Qed.

Lemma playsoundOSX_concrete : Abc.abstractmethods Abc.playsoundOSX = ∅.
Proof. vm_compute. reflexivity. Qed.

Lemma playsoundBase_abstract :
  Abc.abstractmethods Abc.playsoundBase = {["play"; "stop"; "pause"; "resume"]}.
Proof. vm_compute. reflexivity. Qed.

Lemma playsoundNix_abstractmethods :
  Abc.abstractmethods Abc.playsoundNix = {["pause"; "resume"]}.
Proof. vm_compute. reflexivity. Qed.

Lemma playsoundNix_new :
  Nix.new
  = Raise (TypeError (AbstractInstantiation "playsoundNix" {["pause"; "resume"]})).
Proof. vm_compute. reflexivity. Qed.

(** C10. On Linux the selector binds [playsound] to [playsoundNix].  The
    body of that class defines neither [pause] nor [resume], both abstract
    in [playsoundBase], so its [__abstractmethods__] is the set of these two
    names and calling the class raises [TypeError] before any instance
    exists. *)
Theorem C10_playsoundNix_cannot_be_instantiated :
  Abc.playsound "Linux" = Some Abc.playsoundNix
  /\ (Abc.namespace Abc.playsoundNix !! "pause" = None
      /\ Abc.namespace Abc.playsoundNix !! "resume" = None)
  /\ (Abc.getattr Abc.playsoundNix "pause" = Some Abc.abstract
      /\ Abc.getattr Abc.playsoundNix "resume" = Some Abc.abstract)
  /\ Abc.abstractmethods Abc.playsoundNix = {["pause"; "resume"]}
  /\ Nix.new
     = Raise (TypeError (AbstractInstantiation "playsoundNix" {["pause"; "resume"]})).
Proof.
  split; [reflexivity|].
  split; [split; vm_compute; reflexivity|].
  split; [split; vm_compute; reflexivity|].
  split; [exact playsoundNix_abstractmethods|exact playsoundNix_new].
Qed.

(** ** [stop] before any [play] *)

(** C1, as the code has it.  On a fresh Native-Object instance [stop]
    returns, sets [stop_sound] and makes no native call.  On a fresh
    Command-Interface instance [stop] sets [stop_sound] and submits the
    stop command for the alias; it returns when the subsystem accepts that
    command.  The Pipeline class cannot be instantiated, and its [stop]
    raises on every call. *)
Theorem C1_stop_on_fresh_instance :
  (forall (w : OSX.AppKit) (t : list (OSX.event w)),
     OSX.new w = Ret (OSX.__init__ w)
     /\ OSX.stop w (OSX.__init__ w) t
        = (Ret tt, OSX.set_stop_sound w true (OSX.__init__ w), t))
  /\ (forall (mci : Win.MCI) (id_self : Z) (t : list Win.event),
        let s := Win.__init__ id_self in
        let text := join " " ["stop"; Win.alias s] in
        Win.new id_self = Ret s
        /\ final (Win.stop mci s t) = Win.set_stop_sound true s
        /\ trace (Win.stop mci s t) = t ++ [Win.Command text]
        /\ ((Win.mciSendStringA mci t text).1 = 0%Z ->
            result (Win.stop mci s t) = Ret tt))
  /\ (raises Nix.new = true
      /\ forall (s : Nix.playsoundNix) (t : list Nix.event),
           Nix.stop s t = (Raise (TypeError RaiseNonException), s, t)).
Proof.
  split; [|split].
  - intros w t. split.
    + unfold OSX.new, Abc.new. rewrite playsoundOSX_concrete. reflexivity.
    + reflexivity.
  - intros mci id_self t s text.
    split; [unfold Win.new, Abc.new; rewrite playsoundWin_concrete; reflexivity|].
    destruct (stop_sets_flag mci s t) as [Hs Ht].
    split; [exact Hs|]. split; [exact Ht|].
    intros H. unfold Win.stop, Win.stop_audio, bind, assign, self.
    change (Win.alias (Win.set_stop_sound true s)) with (Win.alias s).
    rewrite (winCommand_accepted mci ["stop"; Win.alias s]
               (Win.set_stop_sound true s) t H).
    reflexivity.
  - split; [rewrite playsoundNix_new; reflexivity|]. intros s t. reflexivity.
Qed.

Lemma C1_witness :
  result (Win.stop Stub.always_playing Stub.player []) = Ret tt.
Proof.
  apply (proj2 (proj2 (proj2
           (proj1 (proj2 C1_stop_on_fresh_instance) Stub.always_playing 1%Z [])))).
  reflexivity.
Defined.

(** C1 as worded fails on two backends.  The Pipeline class raises
    [TypeError] when called, and its [stop] raises [TypeError] as well; a
    fresh Command-Interface instance raises [PlaysoundException] from [stop]
    when no device is open under its alias. *)
Lemma C1_counterexample :
  (Nix.new
   = Raise (TypeError (AbstractInstantiation "playsoundNix" {["pause"; "resume"]}))
   /\ result (Nix.stop tt []) = Raise (TypeError RaiseNonException))
  /\ (Win.new 1 = Ret Stub.player
      /\ Win.stop Stub.no_device Stub.player []
         = (Raise (PlaysoundException
                     (Win.exceptionMessage 263 "stop playsound_alias_1"
                        "The specified device is not open or is not recognized by MCI.")),
            Win.set_stop_sound true Stub.player,
            [Win.Command "stop playsound_alias_1"])).
Proof.
  split; split.
  - exact playsoundNix_new.
  - reflexivity.
  - unfold Win.new, Abc.new. rewrite playsoundWin_concrete. reflexivity.
  - reflexivity.
Qed.

(** * Further properties of the backends *)

Lemma append_assoc (a b c : string) : (a +:+ b) +:+ c = a +:+ (b +:+ c).
Proof.
  induction a as [|x a IH]; [reflexivity|].
  change (String x ((a +:+ b) +:+ c) = String x (a +:+ (b +:+ c))).
  now rewrite IH.
Qed.

(** The open command as one text. *)
Lemma open_command_text (sound a : string) :
  join " " (Win.open_command sound a)
  = "open " +:+ dquote +:+ sound +:+ dquote +:+ " alias " +:+ a.
Proof.
  unfold Win.open_command, join. cbn [String.concat].
  rewrite !append_assoc. reflexivity.
Qed.

(** ** Command-Interface backend: the commands of [play] *)

Section PlayCommands.
Variable mci : Win.MCI.

Lemma play_self_alias (alias_arg : option string) (s : Win.playsoundWin) :
  Win.alias (Win.play_self alias_arg s) = Win.play_alias alias_arg s.
Proof.
  unfold Win.play_alias, Win.play_self. destruct (Win.truthy alias_arg); reflexivity.
Qed.

(** [play] up to its open command: the alias is settled and the close
    command has been submitted, whatever its answer. *)
Lemma play_until_open (fuel : nat) (sound : string) (block : bool)
    (alias_arg : option string) (s : Win.playsoundWin) (t : list Win.event) :
  let a := Win.play_alias alias_arg s in
  let s1 := Win.play_self alias_arg s in
  let t1 := t ++ [Win.Command (join " " ["close"; a])] in
  Win.play mci fuel sound block alias_arg s t
  = match Win.winCommand mci (Win.open_command sound a) s1 t1 with
    | (Raise (PlaysoundException msg), _, t2) =>
        if contains Win.mcierr_duplicate_alias msg
        then bind (Win.winCommand mci ["play"; a])
               (fun _ => if block then Win._manage_block mci fuel else ret tt) s1 t2
        else (Raise (PlaysoundException msg), s1, t2)
    | (Raise e, _, t2) => (Raise e, s1, t2)
    | (Ret _, _, t2) =>
        bind (Win.winCommand mci ["play"; a])
          (fun _ => if block then Win._manage_block mci fuel else ret tt) s1 t2
    | (OutOfFuel, _, t2) => (OutOfFuel, s1, t2)
    end.
Proof.
  intros a s1 t1.
  assert (Ha : Win.alias s1 = a) by apply play_self_alias.
  unfold Win.play. unfold bind at 1.
  replace ((match Win.truthy alias_arg with
            | Some a0 => assign (Win.set_alias a0)
            | None => ret tt
            end) s t)
    with (Ret tt, s1, t)
    by (unfold s1, Win.play_self; destruct (Win.truthy alias_arg); reflexivity).
  unfold bind at 1. rewrite close_alias_swallows, Ha. fold t1.
  unfold bind at 1. unfold try_except, bind at 1, self. rewrite Ha. unfold bind at 1.
  destruct (winCommand_frame mci (Win.open_command sound a) s1 t1) as [Hs _].
  destruct (Win.winCommand mci (Win.open_command sound a) s1 t1) as [[o s2] t2].
  unfold final in Hs. simpl in Hs. subst s2.
  destruct o as [buf|e|].
  - unfold ret at 1. unfold bind at 1, self. rewrite Ha. reflexivity.
  - destruct e as [msg| | | | |]; try reflexivity.
    destruct (contains Win.mcierr_duplicate_alias msg); simpl; [|reflexivity].
    unfold ret at 1. unfold bind at 1, self. rewrite Ha. reflexivity.
  - reflexivity.
Qed.

End PlayCommands.

(** X1. [close_alias] never raises: whatever the subsystem answers to the
    close command, it returns, leaves the attributes alone and has submitted
    exactly that one command. *)
Theorem X1_close_alias_never_raises (mci : Win.MCI) (s : Win.playsoundWin)
    (t : list Win.event) :
  Win.close_alias mci s t
  = (Ret tt, s, t ++ [Win.Command ("close " +:+ Win.alias s)]).
Proof. apply close_alias_swallows. Qed.

(** X2. A non-blocking [play] whose open and play commands are accepted
    returns after submitting close, open and play, in that order and nothing
    else: it does not sleep, does not query the status, and changes no
    attribute but the alias.  The answer to the close command plays no
    part. *)
Theorem X2_play_nonblocking_commands (mci : Win.MCI) (fuel : nat)
    (sound : string) (alias_arg : option string) (s : Win.playsoundWin)
    (t : list Win.event) :
  let a := Win.play_alias alias_arg s in
  let t1 := t ++ [Win.Command ("close " +:+ a)] in
  let open_text := "open " +:+ dquote +:+ sound +:+ dquote +:+ " alias " +:+ a in
  let t2 := t1 ++ [Win.Command open_text] in
  (Win.mciSendStringA mci t1 open_text).1 = 0%Z ->
  (Win.mciSendStringA mci t2 ("play " +:+ a)).1 = 0%Z ->
  Win.play mci fuel sound false alias_arg s t
  = (Ret tt, Win.play_self alias_arg s, t2 ++ [Win.Command ("play " +:+ a)])
  /\ Win.sleeps (t2 ++ [Win.Command ("play " +:+ a)]) = Win.sleeps t
  /\ Win.pause_audio (Win.play_self alias_arg s) = Win.pause_audio s.
Proof.
  intros a t1 open_text t2 Hopen Hplay.
  assert (Etext : join " " (Win.open_command sound a) = open_text)
    by apply open_command_text.
  split; [|split].
  - rewrite play_prefix.
    + unfold Win.play_entry. fold a. rewrite Etext. reflexivity.
    + left. fold a. rewrite Etext. exact Hopen.
    + fold a. rewrite Etext. exact Hplay.
  - unfold t2, t1. rewrite !sleeps_app.
    change (Win.sleeps [Win.Command ("close " +:+ a)]) with 0%nat.
    change (Win.sleeps [Win.Command open_text]) with 0%nat.
    change (Win.sleeps [Win.Command ("play " +:+ a)]) with 0%nat. lia.
  - unfold Win.play_self. destruct (Win.truthy alias_arg); reflexivity.
Qed.

Lemma X2_witness :
  Win.play Scenario.nothing_to_close 0 "song.mp3" false None Stub.player []
  = (Ret tt, Stub.player,
     [Win.Command "close playsound_alias_1"; Win.Command Stub.open_song;
      Win.Command "play playsound_alias_1"]).
Proof.
  refine (proj1 (X2_play_nonblocking_commands Scenario.nothing_to_close 0
                   "song.mp3" None Stub.player [] _ _)); reflexivity.
Defined.

(** X3. When the open command is refused, the description of the error is
    UTF-8, and the message built for it does not hold the duplicate-alias
    marker, [play] raises that [PlaysoundException] and stops there: the
    play command is never submitted and nothing is polled. *)
Theorem X3_open_failure_surfaces (mci : Win.MCI) (fuel : nat) (sound : string)
    (block : bool) (alias_arg : option string) (s : Win.playsoundWin)
    (t : list Win.event) :
  let a := Win.play_alias alias_arg s in
  let t1 := t ++ [Win.Command ("close " +:+ a)] in
  let open_text := join " " (Win.open_command sound a) in
  let errorCode := (Win.mciSendStringA mci t1 open_text).1 in
  let msg :=
    Win.exceptionMessage errorCode open_text (Win.mciGetErrorStringA mci errorCode) in
  errorCode <> 0%Z ->
  utf8 (Win.mciGetErrorStringA mci errorCode) = true ->
  contains Win.mcierr_duplicate_alias msg = false ->
  Win.play mci fuel sound block alias_arg s t
  = (Raise (PlaysoundException msg), Win.play_self alias_arg s,
     t1 ++ [Win.Command open_text]).
Proof.
  intros a t1 open_text errorCode msg Hcode Hutf Hmarker.
  rewrite play_until_open. fold a. change (join " " ["close"; a]) with ("close " +:+ a).
  fold t1.
  rewrite (winCommand_refused mci (Win.open_command sound a)
             (Win.play_self alias_arg s) t1
             (Win.mciGetErrorStringA mci errorCode) Hcode (decode_utf8 _ Hutf)).
  fold open_text errorCode msg. rewrite Hmarker. reflexivity.
Qed.

Lemma X3_witness :
  Win.play Stub.open_refused 3 "song.mp3" true None Stub.player []
  = (Raise (PlaysoundException
              (Win.exceptionMessage 263 Stub.open_song
                 "The specified device is not open or is not recognized by MCI.")),
     Stub.player,
     [Win.Command "close playsound_alias_1"; Win.Command Stub.open_song]).
Proof.
  refine (X3_open_failure_surfaces Stub.open_refused 3 "song.mp3" true None
            Stub.player [] _ _ _).
  - vm_compute. discriminate.
  - vm_compute. reflexivity.
  - vm_compute. reflexivity.
Defined.

(** X4. When the open command went through (or was refused as a duplicate
    alias, with a description that is UTF-8) and the play command is
    refused with a description that is UTF-8, [play] raises the
    [PlaysoundException] of the play command.  A blocking call has then
    neither slept nor polled, and [pause_audio] is not rebound. *)
Theorem X4_play_command_failure_surfaces (mci : Win.MCI) (fuel : nat)
    (sound : string) (block : bool) (alias_arg : option string)
    (s : Win.playsoundWin) (t : list Win.event) :
  let a := Win.play_alias alias_arg s in
  let t1 := t ++ [Win.Command ("close " +:+ a)] in
  let open_text := join " " (Win.open_command sound a) in
  let t2 := t1 ++ [Win.Command open_text] in
  let errorCode := (Win.mciSendStringA mci t2 ("play " +:+ a)).1 in
  ((Win.mciSendStringA mci t1 open_text).1 = 0%Z
   \/ ((Win.mciSendStringA mci t1 open_text).1 = 289%Z
       /\ utf8 (Win.mciGetErrorStringA mci 289) = true)) ->
  errorCode <> 0%Z ->
  utf8 (Win.mciGetErrorStringA mci errorCode) = true ->
  Win.play mci fuel sound block alias_arg s t
  = (Raise (PlaysoundException
              (Win.exceptionMessage errorCode ("play " +:+ a)
                 (Win.mciGetErrorStringA mci errorCode))),
     Win.play_self alias_arg s, t2 ++ [Win.Command ("play " +:+ a)])
  /\ Win.sleeps (t2 ++ [Win.Command ("play " +:+ a)]) = Win.sleeps t
  /\ Win.pause_audio (Win.play_self alias_arg s) = Win.pause_audio s.
Proof.
  intros a t1 open_text t2 errorCode Hopen Hplay Hutf.
  split; [|split].
  - rewrite play_until_open. fold a.
    change (join " " ["close"; a]) with ("close " +:+ a). fold t1.
    assert (Hrun : bind (Win.winCommand mci ["play"; a])
                     (fun _ => if block then Win._manage_block mci fuel else ret tt)
                     (Win.play_self alias_arg s) t2
                   = (Raise (PlaysoundException
                               (Win.exceptionMessage errorCode ("play " +:+ a)
                                  (Win.mciGetErrorStringA mci errorCode))),
                      Win.play_self alias_arg s,
                      t2 ++ [Win.Command ("play " +:+ a)])).
    { unfold bind.
      rewrite (winCommand_refused mci ["play"; a] (Win.play_self alias_arg s) t2
                 (Win.mciGetErrorStringA mci errorCode) Hplay (decode_utf8 _ Hutf)).
      reflexivity. }
    destruct Hopen as [H|[H Hu]].
    + rewrite (winCommand_accepted mci (Win.open_command sound a)
                 (Win.play_self alias_arg s) t1 H).
      exact Hrun.
    + rewrite (winCommand_refused mci (Win.open_command sound a)
                 (Win.play_self alias_arg s) t1 (Win.mciGetErrorStringA mci 289))
        by (fold open_text; rewrite H; first [discriminate|apply decode_utf8, Hu]).
      fold open_text. rewrite H, duplicate_alias_recognised. exact Hrun.
  - unfold t2, t1. rewrite !sleeps_app.
    change (Win.sleeps [Win.Command ("close " +:+ a)]) with 0%nat.
    change (Win.sleeps [Win.Command open_text]) with 0%nat.
    change (Win.sleeps [Win.Command ("play " +:+ a)]) with 0%nat. lia.
  - unfold Win.play_self. destruct (Win.truthy alias_arg); reflexivity.
Qed.

Lemma X4_witness :
  Win.play Scenario.play_refused 3 "song.mp3" true None Stub.player []
  = (Raise (PlaysoundException
              (Win.exceptionMessage 277 "play playsound_alias_1"
                 "A problem occurred in initializing MCI.")),
     Stub.player,
     [Win.Command "close playsound_alias_1"; Win.Command Stub.open_song;
      Win.Command "play playsound_alias_1"]).
Proof.
  refine (proj1 (X4_play_command_failure_surfaces Scenario.play_refused 3
                   "song.mp3" true None Stub.player [] _ _ _)).
  - left. reflexivity.
  - vm_compute. discriminate.
  - vm_compute. reflexivity.
Defined.

(** ** Command-Interface backend: the polling loop *)

Section LoopShape.
Variable mci : Win.MCI.


(** Whatever the subsystem answers, the calls of the loop are rounds of one
    sleep and one status query. *)
Lemma manage_block_loop_rounds (fuel : nat) (s : Win.playsoundWin) :
  forall t,
    exists k, (k <= fuel)%nat
      /\ trace (Win.manage_block_loop mci fuel s t)
         = Win.poll_trace (Win.alias s) t k.
Proof.
  induction fuel as [|fuel IH]; intros t.
  - exists 0%nat. split; [lia|reflexivity].
  - rewrite manage_block_loop_unfold.
    destruct (winCommand_frame mci ["status"; Win.alias s; "mode"] s
                (t ++ [Win.Sleep Win.poll_interval])) as [Hs Ht].
    destruct (Win.winCommand mci ["status"; Win.alias s; "mode"] s
                (t ++ [Win.Sleep Win.poll_interval])) as [[o s'] t'].
    unfold final, trace in Hs, Ht. simpl in Hs, Ht. subst s' t'.
    change (join " " ["status"; Win.alias s; "mode"])
      with (Win.status_text (Win.alias s)).
    destruct o as [status|e|]; try (exists 1%nat; split; [lia|reflexivity]).
    destruct (String.eqb status "stopped");
      [exists 1%nat; split; [lia|reflexivity]|].
    destruct (IH ((t ++ [Win.Sleep Win.poll_interval])
                    ++ [Win.Command (Win.status_text (Win.alias s))]))
      as [k [Hk Hrun]].
    exists (S k). split; [lia|]. exact Hrun.
Qed.

End LoopShape.



(** X6. When the status query of the first round of a blocking [play] is
    refused with a description that is UTF-8, [play] raises the
    [PlaysoundException] of that query after one sleep.  The attributes are those [_manage_block] set on entry: the call
    has failed, and [pause_audio] is rebound all the same. *)
Theorem X6_status_failure_ends_blocking_play (mci : Win.MCI) (fuel : nat)
    (sound : string) (alias_arg : option string) (s : Win.playsoundWin)
    (t : list Win.event) :
  let a := Win.play_alias alias_arg s in
  let t1 := t ++ [Win.Command ("close " +:+ a)] in
  let open_text := join " " (Win.open_command sound a) in
  let t2 := t1 ++ [Win.Command open_text] in
  let t3 := Win.play_entry sound a t ++ [Win.Sleep Win.poll_interval] in
  let errorCode := (Win.mciSendStringA mci t3 (Win.status_text a)).1 in
  ((Win.mciSendStringA mci t1 open_text).1 = 0%Z
   \/ ((Win.mciSendStringA mci t1 open_text).1 = 289%Z
       /\ utf8 (Win.mciGetErrorStringA mci 289) = true)) ->
  (Win.mciSendStringA mci t2 ("play " +:+ a)).1 = 0%Z ->
  errorCode <> 0%Z ->
  utf8 (Win.mciGetErrorStringA mci errorCode) = true ->
  Win.play mci (S fuel) sound true alias_arg s t
  = (Raise (PlaysoundException
              (Win.exceptionMessage errorCode (Win.status_text a)
                 (Win.mciGetErrorStringA mci errorCode))),
     Win.block_self (Win.play_self alias_arg s),
     t3 ++ [Win.Command (Win.status_text a)])
  /\ Win.rebound (Win.block_self (Win.play_self alias_arg s)).
Proof.
  intros a t1 open_text t2 t3 errorCode Hopen Hplay Hstatus Hutf.
  split; [|reflexivity].
  rewrite play_prefix by assumption.
  rewrite manage_block_loop_unfold, play_alias_kept. fold a t3.
  rewrite (winCommand_refused mci ["status"; a; "mode"]
             (Win.block_self (Win.play_self alias_arg s)) t3
             (Win.mciGetErrorStringA mci errorCode) Hstatus (decode_utf8 _ Hutf)).
  reflexivity.
Qed.

Lemma X6_witness :
  Win.play Scenario.status_refused 1 "song.mp3" true None Stub.player []
  = (Raise (PlaysoundException
              (Win.exceptionMessage 263 "status playsound_alias_1 mode"
                 "The specified device is not open or is not recognized by MCI.")),
     Win.block_self Stub.player,
     [Win.Command "close playsound_alias_1"; Win.Command Stub.open_song;
      Win.Command "play playsound_alias_1"; Win.Sleep Win.poll_interval;
      Win.Command "status playsound_alias_1 mode"]).
Proof.
  refine (proj1 (X6_status_failure_ends_blocking_play Scenario.status_refused 0
                   "song.mp3" None Stub.player [] _ _ _ _)).
  - left. reflexivity.
  - reflexivity.
  - vm_compute. discriminate.
  - vm_compute. reflexivity.
Defined.

(** X7. Whatever the subsystem answers, the polling loop submits nothing but
    status queries for the alias, each one preceded by one sleep of the poll
    interval: its trace is some number of such rounds put after the trace it
    was entered with, so it has slept exactly as often as it has polled. *)
Theorem X7_loop_sleeps_once_per_poll (mci : Win.MCI) (fuel : nat)
    (s : Win.playsoundWin) (t : list Win.event) :
  exists k, (k <= fuel)%nat
    /\ trace (Win.manage_block_loop mci fuel s t) = Win.poll_trace (Win.alias s) t k
    /\ Win.sleeps (trace (Win.manage_block_loop mci fuel s t)) = (Win.sleeps t + k)%nat
    /\ Win.polls (Win.alias s) (trace (Win.manage_block_loop mci fuel s t))
       = (Win.polls (Win.alias s) t + k)%nat.
Proof.
  destruct (manage_block_loop_rounds mci fuel s t) as [k [Hk Hrun]].
  exists k. split; [exact Hk|]. split; [exact Hrun|].
  rewrite Hrun, sleeps_poll_trace, polls_poll_trace. split; reflexivity.
Qed.

(** ** Command-Interface backend: the alias *)

Lemma to_int_not_nil (n : Z) :
  Z.to_int n <> Decimal.Pos Decimal.Nil /\ Z.to_int n <> Decimal.Neg Decimal.Nil.
Proof.
  destruct n as [|p|p]; simpl; split; try discriminate;
    intros [= H]; exact (DecimalPos.Unsigned.to_uint_nonnil p H).
Qed.

(** [str] can be read back: [int(str(n)) == n]. *)
Lemma str_read_back (n : Z) :
  option_map Z.of_int (NilZero.int_of_string (str n)) = Some n.
Proof.
  unfold str. destruct (to_int_not_nil n) as [Hpos Hneg].
  rewrite (NilZero.isi _ Hpos Hneg). simpl. now rewrite DecimalZ.of_to.
Qed.

Lemma str_inj (n m : Z) : str n = str m -> n = m.
Proof.
  intros H. pose proof (str_read_back n) as Hn. rewrite H, str_read_back in Hn.
  now injection Hn.
Qed.

(** X8. Instances with different [id]s get different aliases from
    [__init__]: the alias names its instance. *)
Theorem X8_alias_names_its_instance (id1 id2 : Z) :
  id1 <> id2 ->
  Win.alias (Win.__init__ id1) <> Win.alias (Win.__init__ id2).
Proof.
  intros Hne H. apply Hne, str_inj.
  unfold Win.__init__ in H. cbn [Win.alias] in H.
  exact (String.app_inj "playsound_alias_" _ _ H).
Qed.

Lemma X8_witness :
  (140234866 <> 140234867)%Z
  /\ Win.alias (Win.__init__ 140234866) <> Win.alias (Win.__init__ 140234867).
Proof.
  assert (H : (140234866 <> 140234867)%Z) by discriminate.
  split; [exact H|]. exact (X8_alias_names_its_instance _ _ H).
Defined.

Section WinFrame.
Variable mci : Win.MCI.
Context {X : Type}.
Variable f : Win.playsoundWin -> X.

Local Abbreviation unchanged := (Frame.unchanged (E:=Win.event) f).

Lemma unchanged_ret {A} (a : A) : unchanged (ret a).
Proof. intros s t. reflexivity. Qed.

Lemma unchanged_raise {A} (e : exn) : unchanged (raise (A:=A) e).
Proof. intros s t. reflexivity. Qed.

Lemma unchanged_self : unchanged self.
Proof. intros s t. reflexivity. Qed.

Lemma unchanged_assign (g : Win.playsoundWin -> Win.playsoundWin) :
  (forall s, f (g s) = f s) -> unchanged (assign g).
Proof. intros Hg s t. apply Hg. Qed.

Lemma unchanged_bind {A B} (c : M A) (k : A -> M B) :
  unchanged c -> (forall a, unchanged (k a)) -> unchanged (bind c k).
Proof.
  intros Hc Hk s t. specialize (Hc s t). unfold bind.
  destruct (c s t) as [[[a|e|] s'] t']; unfold final in *; simpl in *;
    [rewrite <- Hc; apply Hk|exact Hc..].
Qed.

Lemma unchanged_try_except {A} (c : M A) (handler : exn -> M A) :
  unchanged c -> (forall e, unchanged (handler e)) ->
  unchanged (try_except c handler).
Proof.
  intros Hc Hh s t. specialize (Hc s t). unfold try_except.
  destruct (c s t) as [[[a|e|] s'] t']; unfold final in *; simpl in *;
    [exact Hc|rewrite <- Hc; apply Hh|exact Hc].
Qed.

Lemma unchanged_winCommand (command : list string) :
  unchanged (Win.winCommand mci command).
Proof. intros s t. now destruct (winCommand_frame mci command s t) as [-> _]. Qed.

Lemma unchanged_manage_block_loop (fuel : nat) :
  unchanged (Win.manage_block_loop mci fuel).
Proof. intros s t. now rewrite manage_block_loop_final. Qed.

End WinFrame.

Create HintDb frame.
#[local] Hint Resolve unchanged_ret unchanged_raise unchanged_self
  unchanged_winCommand unchanged_manage_block_loop : frame.

Ltac frame_step :=
  first
    [ solve [auto with frame]
    | apply unchanged_bind; [|intros ?]
    | apply unchanged_try_except; [|intros ?]
    | apply unchanged_assign; intros ?; reflexivity
    | match goal with |- Frame.unchanged _ (if ?b then _ else _) => destruct b end
    | match goal with |- Frame.unchanged _ (match ?x with _ => _ end) => destruct x end ].

(** X9. Only [play] called with a non-empty alias changes the alias, and it
    does so before anything can fail: after a call of any public method,
    however it ends, the alias is the one [play] was given, or else the one
    the instance had.  [None] and the empty string both keep the alias. *)
Theorem X9_alias_after_a_call (mci : Win.MCI) (fuel : nat) (c : Win.call)
    (s : Win.playsoundWin) (t : list Win.event) :
  Win.alias (final (Win.invoke mci fuel c s t))
  = match c with
    | Win.Play _ _ (Some (String x a)) => String x a
    | _ => Win.alias s
    end.
Proof.
  destruct c as [sound block alias_arg| | |block]; cbn [Win.invoke].
  - unfold Win.play. unfold bind at 1.
    destruct alias_arg as [[|x a]|]; cbn [Win.truthy];
      unfold assign at 1 || unfold ret at 1; cbv beta iota;
      match goal with
      | |- Win.alias (final (?c ?s1 ?t1)) = _ =>
          assert (H : Frame.unchanged Win.alias c)
            by (unfold Win.close_alias, Win._manage_block; repeat frame_step);
          apply H
      end.
  - assert (H : Frame.unchanged Win.alias (Win.stop mci))
      by (unfold Win.stop, Win.stop_audio; repeat frame_step).
    apply H.
  - assert (H : Frame.unchanged Win.alias (Win.pause mci))
      by (unfold Win.pause, Win.pause_audio_method; repeat frame_step).
    apply H.
  - assert (H : Frame.unchanged Win.alias (Win.resume mci fuel block))
      by (unfold Win.resume, Win.get_status, Win.resume_audio, Win._manage_block;
          repeat frame_step).
    apply H.
Qed.

(** X10. [pause_sound] records the last of [pause] and [resume], whether or
    not the call went through: [pause] leaves it set even when it raises,
    [resume] leaves it cleared even when it raises or does nothing, and
    [play] and [stop] never touch it. *)
Theorem X10_pause_sound_after_a_call (mci : Win.MCI) (fuel : nat) (c : Win.call)
    (s : Win.playsoundWin) (t : list Win.event) :
  Win.pause_sound (final (Win.invoke mci fuel c s t))
  = match c with
    | Win.Pause => true
    | Win.Resume _ => false
    | _ => Win.pause_sound s
    end.
Proof.
  destruct c as [sound block alias_arg| | |block]; cbn [Win.invoke].
  - assert (H : Frame.unchanged Win.pause_sound
                  (Win.play mci fuel sound block alias_arg))
      by (unfold Win.play, Win.close_alias, Win._manage_block; repeat frame_step).
    apply H.
  - assert (H : Frame.unchanged Win.pause_sound (Win.stop mci))
      by (unfold Win.stop, Win.stop_audio; repeat frame_step).
    apply H.
  - unfold Win.pause. unfold bind at 1, assign at 1.
    match goal with
    | |- Win.pause_sound (final (?c ?s1 ?t1)) = _ =>
        assert (H : Frame.unchanged Win.pause_sound c)
          by (unfold Win.pause_audio_method; repeat frame_step);
        rewrite H
    end.
    reflexivity.
  - unfold Win.resume. unfold bind at 1, assign at 1.
    match goal with
    | |- Win.pause_sound (final (?c ?s1 ?t1)) = _ =>
        assert (H : Frame.unchanged Win.pause_sound c)
          by (unfold Win.get_status, Win.resume_audio, Win._manage_block;
              repeat frame_step);
        rewrite H
    end.
    reflexivity.
Qed.

(** ** Command-Interface backend: [resume] *)



(** ** Native-Object backend: the URL and the sound object *)

Lemma file_url_has_scheme (path : string) : contains "://" ("file://" +:+ path) = true.
Proof.
  change ("file://" +:+ path) with ("file" +:+ ("://" +:+ path)).
  apply contains_later, contains_here.
Qed.

(** X12. What [play] hands to [URLWithString_] always holds [://]: a
    reference that holds it is taken as it is, an absolute path gets the
    prefix [file://], and a relative one the prefix and the working
    directory.  Normalising twice is the same as normalising once. *)
Theorem X12_normalize_gives_a_url (w : OSX.AppKit) (sound : string) :
  contains "://" (OSX.normalize w sound) = true
  /\ OSX.normalize w (OSX.normalize w sound) = OSX.normalize w sound
  /\ (contains "://" sound = true -> OSX.normalize w sound = sound)
  /\ (contains "://" sound = false -> startswith "/" sound = true ->
      OSX.normalize w sound = "file://" +:+ sound).
Proof.
  assert (Hscheme : contains "://" (OSX.normalize w sound) = true).
  { unfold OSX.normalize. destruct (contains "://" sound) eqn:E; cbn [negb].
    - exact E.
    - apply file_url_has_scheme. }
  split; [exact Hscheme|]. split; [|split].
  - unfold OSX.normalize at 1. rewrite Hscheme. reflexivity.
  - intros H. unfold OSX.normalize. rewrite H. reflexivity.
  - intros H1 H2. unfold OSX.normalize. rewrite H1, H2. reflexivity.
Qed.

Lemma X12_witness :
  OSX.normalize Stub.appkit "/tmp/a.wav" = "file:///tmp/a.wav".
Proof.
  apply (proj2 (proj2 (proj2 (X12_normalize_gives_a_url Stub.appkit "/tmp/a.wav"))));
    reflexivity.
Defined.

Section NativeObject.
Variable w : OSX.AppKit.

(** [play] up to the point where the sound object is tested. *)
Lemma play_unfold (sound : string) (block : bool) (s : OSX.playsoundOSX w)
    (t : list (OSX.event w)) :
  let url := OSX.normalize w sound in
  let loaded :=
    OSX.initWithContentsOfURL_byReference_ w (OSX.URLWithString_ w url) true in
  let t1 := t ++ [OSX.Call_URLWithString url;
                  OSX.Call_initWithContentsOfURL (OSX.URLWithString_ w url) true] in
  OSX.play w sound block s t
  = match loaded with
    | None =>
        (Raise (IOError ("Unable to load sound named: " +:+ url)),
         OSX.set_nssound w None s, t1)
    | Some snd =>
        (Ret tt, OSX.set_is_playing w true (OSX.set_nssound w (Some snd) s),
         t1 ++ OSX.Call_play snd
              :: if block
                 then [OSX.Call_duration snd; OSX.Sleep (OSX.duration w snd)]
                 else [])
    end.
Proof.
  intros url loaded t1. unfold OSX.play. fold url.
  unfold bind, emit, assign, self, raise, ret. fold loaded. cbn [OSX.nssound OSX.set_nssound].
  unfold t1. destruct loaded as [snd|]; [destruct block|];
    cbn [OSX.nssound OSX.set_nssound]; rewrite <- ?app_assoc; reflexivity.
Qed.

End NativeObject.

(** X13. When the sound object cannot be made, [play] raises [IOError]
    naming the normalised URL, after the two constructor calls and nothing
    else.  The sound held before is dropped, so that a [stop] after the
    failed call makes no native call. *)
Theorem X13_load_failure (w : OSX.AppKit) (sound : string) (block : bool)
    (s : OSX.playsoundOSX w) (t : list (OSX.event w)) :
  let url := OSX.normalize w sound in
  let t1 := t ++ [OSX.Call_URLWithString url;
                  OSX.Call_initWithContentsOfURL (OSX.URLWithString_ w url) true] in
  OSX.initWithContentsOfURL_byReference_ w (OSX.URLWithString_ w url) true = None ->
  OSX.play w sound block s t
  = (Raise (IOError ("Unable to load sound named: " +:+ url)),
     OSX.set_nssound w None s, t1)
  /\ OSX.stop w (OSX.set_nssound w None s) t1
     = (Ret tt, OSX.set_stop_sound w true (OSX.set_nssound w None s), t1).
Proof.
  intros url t1 H. split; [|reflexivity].
  rewrite play_unfold. fold url. rewrite H. reflexivity.
Qed.

Lemma X13_witness :
  OSX.play Scenario.appkit_no_sound "a.mp3" true
    (OSX.__init__ Scenario.appkit_no_sound) []
  = (Raise (IOError "Unable to load sound named: file:///Users/me/a.mp3"),
     OSX.__init__ Scenario.appkit_no_sound,
     [] ++ [OSX.Call_URLWithString "file:///Users/me/a.mp3";
            OSX.Call_initWithContentsOfURL
              (OSX.URLWithString_ Scenario.appkit_no_sound "file:///Users/me/a.mp3")
              true]).
Proof.
  refine (proj1 (X13_load_failure Scenario.appkit_no_sound "a.mp3" true
                   (OSX.__init__ Scenario.appkit_no_sound) [] _)).
  reflexivity.
Defined.

(** X14. When the sound object is made, [play] starts it and returns; a
    blocking call sleeps once, for the duration the object reports, and a
    non-blocking call does not sleep.  The new object replaces whatever was
    held, without a native stop of the old one. *)
Theorem X14_play_sleeps_for_the_duration (w : OSX.AppKit) (sound : string)
    (snd : OSX.NSSound w) (s : OSX.playsoundOSX w) (t : list (OSX.event w)) :
  let url := OSX.normalize w sound in
  let t1 := t ++ [OSX.Call_URLWithString url;
                  OSX.Call_initWithContentsOfURL (OSX.URLWithString_ w url) true] in
  let s1 := OSX.set_is_playing w true (OSX.set_nssound w (Some snd) s) in
  OSX.initWithContentsOfURL_byReference_ w (OSX.URLWithString_ w url) true
  = Some snd ->
  OSX.play w sound true s t
  = (Ret tt, s1,
     t1 ++ [OSX.Call_play snd; OSX.Call_duration snd; OSX.Sleep (OSX.duration w snd)])
  /\ OSX.play w sound false s t = (Ret tt, s1, t1 ++ [OSX.Call_play snd]).
Proof.
  intros url t1 s1 H. split; rewrite play_unfold; fold url; rewrite H; reflexivity.
Qed.

Lemma X14_witness :
  OSX.play Stub.appkit "a.mp3" true (OSX.__init__ Stub.appkit) []
  = (Ret tt,
     OSX.set_is_playing Stub.appkit true
       (OSX.set_nssound Stub.appkit (Some "file:///Users/me/a.mp3")
          (OSX.__init__ Stub.appkit)),
     ([] ++ [OSX.Call_URLWithString "file:///Users/me/a.mp3";
             OSX.Call_initWithContentsOfURL
               (OSX.URLWithString_ Stub.appkit "file:///Users/me/a.mp3") true])
       ++ [OSX.Call_play (w:=Stub.appkit) "file:///Users/me/a.mp3";
           OSX.Call_duration (w:=Stub.appkit) "file:///Users/me/a.mp3";
           OSX.Sleep (3 # 1)]).
Proof.
  refine (proj1 (X14_play_sleeps_for_the_duration Stub.appkit "a.mp3"
                   "file:///Users/me/a.mp3" (OSX.__init__ Stub.appkit) [] _)).
  reflexivity.
Defined.

(** X15. [stop] never clears [is_playing]: once a [play] has gone through,
    every [stop] calls the native stop of the held object, the second as
    well as the first. *)
Theorem X15_stop_after_play_repeats (w : OSX.AppKit) (sound : string)
    (block : bool) (snd : OSX.NSSound w) (s : OSX.playsoundOSX w)
    (t t1 t2 : list (OSX.event w)) :
  let url := OSX.normalize w sound in
  OSX.initWithContentsOfURL_byReference_ w (OSX.URLWithString_ w url) true
  = Some snd ->
  let s1 := final (OSX.play w sound block s t) in
  OSX.stop w s1 t1 = (Ret tt, OSX.set_stop_sound w true s1, t1 ++ [OSX.Call_stop snd])
  /\ OSX.stop w (OSX.set_stop_sound w true s1) t2
     = (Ret tt, OSX.set_stop_sound w true s1, t2 ++ [OSX.Call_stop snd]).
Proof.
  intros url H s1. unfold s1. rewrite play_unfold. fold url. rewrite H.
  split; reflexivity.
Qed.

Lemma X15_witness :
  OSX.stop Stub.appkit
    (final (OSX.play Stub.appkit "a.mp3" false (OSX.__init__ Stub.appkit) [])) []
  = (Ret tt,
     OSX.set_stop_sound Stub.appkit true
       (final (OSX.play Stub.appkit "a.mp3" false (OSX.__init__ Stub.appkit) [])),
     [] ++ [OSX.Call_stop (w:=Stub.appkit) "file:///Users/me/a.mp3"]).
Proof.
  refine (proj1 (X15_stop_after_play_repeats Stub.appkit "a.mp3" false
                   "file:///Users/me/a.mp3" (OSX.__init__ Stub.appkit) [] [] [] _)).
  reflexivity.
Defined.

(** ** Native-Object backend: [pause] and [resume] *)

Section NativeTransport.
Variable w : OSX.AppKit.

Lemma no_resume_in_core (l : list (OSX.event w)) :
  existsb OSXTransport.is_resume (map OSXTransport.Core l) = false.
Proof. induction l as [|e l IH]; [reflexivity|exact IH]. Qed.

Lemma resume_without_paused (block : bool) (s : OSXTransport.instance w)
    (t : list (OSXTransport.event w)) :
  OSXTransport.paused s = None ->
  OSXTransport.resume w block s t
  = (match OSX.nssound (OSXTransport.core s) with
     | None => Ret tt
     | Some _ => Raise (AttributeError "playsoundOSX" "paused")
     end, s, t).
Proof.
  intros H. unfold OSXTransport.resume, bind, self.
  destruct (OSX.nssound (OSXTransport.core s)); [rewrite H|]; reflexivity.
Qed.

(** No method binds [paused] while it is unbound, and none calls the native
    resume then. *)
Lemma invoke_keeps_paused_unbound (c : OSXTransport.call)
    (s : OSXTransport.instance w) (t : list (OSXTransport.event w)) :
  OSXTransport.paused s = None ->
  OSXTransport.paused (final (OSXTransport.invoke w c s t)) = None
  /\ existsb OSXTransport.is_resume (trace (OSXTransport.invoke w c s t))
     = existsb OSXTransport.is_resume t.
Proof.
  intros H. destruct c as [sound block| | |block]; cbn [OSXTransport.invoke].
  - unfold OSXTransport.play, OSXTransport.lift, final, trace. simpl.
    rewrite existsb_app, no_resume_in_core, orb_false_r. split; [exact H|reflexivity].
  - unfold OSXTransport.stop, OSXTransport.lift, final, trace. simpl.
    rewrite existsb_app, no_resume_in_core, orb_false_r. split; [exact H|reflexivity].
  - unfold OSXTransport.pause, bind, assign, self, emit, ret, final, trace.
    cbn [OSXTransport.core OSXTransport.set_pause_sound OSX.nssound].
    destruct (OSX.nssound (OSXTransport.core s)); simpl; (split; [exact H|]);
      [rewrite existsb_app; simpl; apply orb_false_r|reflexivity].
  - rewrite resume_without_paused by exact H. split; [exact H|reflexivity].
Qed.

Lemma session_keeps_paused_unbound (cs : list OSXTransport.call) :
  forall (s : OSXTransport.instance w) (t : list (OSXTransport.event w)),
    OSXTransport.paused s = None ->
    OSXTransport.paused (OSXTransport.session w cs s t).1 = None
    /\ existsb OSXTransport.is_resume (OSXTransport.session w cs s t).2
       = existsb OSXTransport.is_resume t.
Proof.
  induction cs as [|c cs IH]; intros s t H; cbn [OSXTransport.session].
  - split; [exact H|reflexivity].
  - destruct (invoke_keeps_paused_unbound c s t H) as [Hp Ht].
    destruct (IH _ (trace (OSXTransport.invoke w c s t)) Hp) as [Hp' Ht'].
    split; [exact Hp'|]. rewrite Ht'. exact Ht.
Qed.

End NativeTransport.

(** X16. [resume] never resumes.  [__init__] does not bind [paused] and no
    method binds it before reading it, so after any calls on a new instance
    the attribute is still unbound and no native resume was made; the next
    [resume] is a no-op while no sound is held and raises [AttributeError]
    once one is held.  On a new instance [pause] only sets [pause_sound]. *)
Theorem X16_resume_never_resumes (w : OSX.AppKit) (calls : list OSXTransport.call)
    (t : list (OSXTransport.event w)) :
  let later := OSXTransport.session w calls (OSXTransport.__init__ w) t in
  OSXTransport.paused later.1 = None
  /\ existsb OSXTransport.is_resume later.2 = existsb OSXTransport.is_resume t
  /\ (forall block,
        OSXTransport.resume w block later.1 later.2
        = (match OSX.nssound (OSXTransport.core later.1) with
           | None => Ret tt
           | Some _ => Raise (AttributeError "playsoundOSX" "paused")
           end, later.1, later.2))
  /\ OSXTransport.pause w (OSXTransport.__init__ w) t
     = (Ret tt, OSXTransport.set_pause_sound w true (OSXTransport.__init__ w), t).
Proof.
  intros later.
  destruct (session_keeps_paused_unbound w calls (OSXTransport.__init__ w) t eq_refl)
    as [Hp Ht].
  split; [exact Hp|]. split; [exact Ht|]. split; [|reflexivity].
  intros block. apply resume_without_paused. exact Hp.
Qed.

Example resume_after_play_raises :
  let played :=
    OSXTransport.session Stub.appkit [OSXTransport.Play "a.mp3" false;
                                      OSXTransport.Pause]
      (OSXTransport.__init__ Stub.appkit) [] in
  played.2
  = [OSXTransport.Core (OSX.Call_URLWithString "file:///Users/me/a.mp3");
     OSXTransport.Core
       (OSX.Call_initWithContentsOfURL
          (OSX.URLWithString_ Stub.appkit "file:///Users/me/a.mp3") true);
     OSXTransport.Core (OSX.Call_play (w:=Stub.appkit) "file:///Users/me/a.mp3");
     OSXTransport.Call_pause (w:=Stub.appkit) "file:///Users/me/a.mp3"]
  /\ result (OSXTransport.resume Stub.appkit true played.1 played.2)
     = Raise (AttributeError "playsoundOSX" "paused").
Proof. cbv zeta. split; reflexivity. Qed.

(** ** Pipeline backend: a whole [play] *)

(** X17. When the factory gives a playbin and the request for [PLAYING]
    answers [ASYNC], a blocking [play] makes these calls, in this order:
    initialise GStreamer, make the playbin, set its URI, request [PLAYING],
    fetch the bus, poll it for end of stream.  When the poll returns, [play]
    requests [NULL] and returns.  When the stream never ends, the poll
    never returns: [play] does not return and [NULL] is not requested.  The
    URI is the reference itself when that starts with [http://] or
    [https://]. *)
Theorem X17_pipeline_play_sequence (gst : Nix.Gst) (sound : string)
    (s : Nix.playsoundNix) (t : list Nix.event) :
  Nix.ElementFactory_make gst "playbin" "playbin" = true ->
  Nix.set_state gst (t ++ Nix.before_set_state gst sound) Nix.PLAYING = Nix.ASYNC ->
  (Nix.bus_poll gst (t ++ Nix.before_bus_poll gst sound) = true ->
   Nix.play gst sound true s t
   = (Ret tt, s,
      t ++ [Nix.Call_Gst_init; Nix.Call_ElementFactory_make "playbin" "playbin";
            Nix.Call_set_uri (Nix.uri gst sound); Nix.Call_set_state Nix.PLAYING;
            Nix.Call_get_bus; Nix.Call_bus_poll; Nix.Call_set_state Nix.NULL]))
  /\ (Nix.bus_poll gst (t ++ Nix.before_bus_poll gst sound) = false ->
      Nix.play gst sound true s t
      = (OutOfFuel, s,
         t ++ [Nix.Call_Gst_init; Nix.Call_ElementFactory_make "playbin" "playbin";
               Nix.Call_set_uri (Nix.uri gst sound); Nix.Call_set_state Nix.PLAYING;
               Nix.Call_get_bus; Nix.Call_bus_poll]))
  /\ (startswith "http://" sound = true \/ startswith "https://" sound = true ->
      Nix.uri gst sound = sound).
Proof.
  intros Hmake Hstate.
  assert (Hrun : Nix.play gst sound true s t
                 = if negb (Nix.bus_poll gst (t ++ Nix.before_bus_poll gst sound))
                   then (OutOfFuel, s,
                         t ++ Nix.before_bus_poll gst sound ++ [Nix.Call_bus_poll])
                   else (Ret tt, s,
                         t ++ Nix.before_bus_poll gst sound
                           ++ [Nix.Call_bus_poll; Nix.Call_set_state Nix.NULL])).
  { unfold Nix.play. cbn [negb].
    unfold bind, emit, history, raise. rewrite Hmake. cbn [negb].
    fold (Nix.uri gst sound).
    replace (((t ++ [Nix.Call_Gst_init])
                ++ [Nix.Call_ElementFactory_make "playbin" "playbin"])
               ++ [Nix.Call_set_uri (Nix.uri gst sound)])
      with (t ++ Nix.before_set_state gst sound)
      by (unfold Nix.before_set_state; rewrite <- !app_assoc; reflexivity).
    rewrite Hstate. cbn [Nix.StateChangeReturn_eqb negb].
    replace (((t ++ Nix.before_set_state gst sound) ++ [Nix.Call_set_state Nix.PLAYING])
               ++ [Nix.Call_get_bus])
      with (t ++ Nix.before_bus_poll gst sound)
      by (unfold Nix.before_bus_poll; rewrite <- !app_assoc; reflexivity).
    destruct (Nix.bus_poll gst (t ++ Nix.before_bus_poll gst sound));
      cbn [negb]; unfold diverge; rewrite <- !app_assoc; reflexivity. }
  split; [|split].
  - intros H. rewrite Hrun, H. reflexivity.
  - intros H. rewrite Hrun, H. reflexivity.
  - unfold Nix.uri. intros [H|H]; rewrite H; [|rewrite orb_true_r]; reflexivity.
Qed.

Lemma X17_witness :
  Nix.play Scenario.gst_async "http://example.org/a.ogg" true tt []
  = (Ret tt, tt,
     [] ++ [Nix.Call_Gst_init; Nix.Call_ElementFactory_make "playbin" "playbin";
            Nix.Call_set_uri (Nix.uri Scenario.gst_async "http://example.org/a.ogg");
            Nix.Call_set_state Nix.PLAYING;
            Nix.Call_get_bus; Nix.Call_bus_poll; Nix.Call_set_state Nix.NULL]).
Proof.
  refine (proj1 (X17_pipeline_play_sequence Scenario.gst_async
                   "http://example.org/a.ogg" tt [] _ _) _); reflexivity.
Defined.

Example play_without_end_of_stream :
  Nix.play Scenario.gst_no_eos "a.mp3" true tt []
  = (OutOfFuel, tt,
     [Nix.Call_Gst_init; Nix.Call_ElementFactory_make "playbin" "playbin";
      Nix.Call_set_uri "file:///home/me/a.mp3"; Nix.Call_set_state Nix.PLAYING;
      Nix.Call_get_bus; Nix.Call_bus_poll]).
Proof. reflexivity. Qed.

(** X18. When the factory gives no playbin, a blocking [play] raises
    [AttributeError] on the first use of the element: GStreamer was
    initialised and the factory asked, and no URI was set and no state
    requested. *)
Theorem X18_no_playbin (gst : Nix.Gst) (sound : string) (s : Nix.playsoundNix)
    (t : list Nix.event) :
  Nix.ElementFactory_make gst "playbin" "playbin" = false ->
  Nix.play gst sound true s t
  = (Raise (AttributeError "NoneType" "props"), s,
     t ++ [Nix.Call_Gst_init; Nix.Call_ElementFactory_make "playbin" "playbin"]).
Proof.
  intros Hmake. unfold Nix.play. cbn [negb].
  unfold bind, emit, raise. rewrite Hmake. cbn [negb].
  rewrite <- app_assoc. reflexivity.
Qed.

Lemma X18_witness :
  Nix.play Scenario.gst_no_playbin "a.mp3" true tt []
  = (Raise (AttributeError "NoneType" "props"), tt,
     [] ++ [Nix.Call_Gst_init; Nix.Call_ElementFactory_make "playbin" "playbin"]).
Proof.
  apply (X18_no_playbin Scenario.gst_no_playbin "a.mp3" tt []). reflexivity.
Defined.

(** ** The selector *)

(** X19. The selector knows three systems and no other.  On Windows and on
    Darwin it picks a class that defines all four abstract methods and can
    be instantiated; on Linux it picks the one class that cannot; for any
    other name it binds nothing. *)
Theorem X19_selector (operating_system : string) :
  match Abc.playsound operating_system with
  | Some c =>
      (operating_system = "Windows" /\ c = Abc.playsoundWin /\ Abc.new c = Ret tt)
      \/ (operating_system = "Darwin" /\ c = Abc.playsoundOSX /\ Abc.new c = Ret tt)
      \/ (operating_system = "Linux" /\ c = Abc.playsoundNix
          /\ raises (Abc.new c) = true)
  | None =>
      operating_system <> "Windows" /\ operating_system <> "Darwin"
      /\ operating_system <> "Linux"
  end.
Proof.
  unfold Abc.playsound.
  destruct (String.eqb_spec operating_system "Windows") as [->|Hw].
  { left. split; [reflexivity|]. split; [reflexivity|].
    unfold Abc.new. rewrite playsoundWin_concrete. reflexivity. }
  destruct (String.eqb_spec operating_system "Darwin") as [->|Hd].
  { right. left. split; [reflexivity|]. split; [reflexivity|].
    unfold Abc.new. rewrite playsoundOSX_concrete. reflexivity. }
  destruct (String.eqb_spec operating_system "Linux") as [->|Hl].
  { right. right. split; [reflexivity|]. split; [reflexivity|].
    change (Abc.new Abc.playsoundNix) with Nix.new. rewrite playsoundNix_new.
    reflexivity. }
  repeat split; assumption.
Qed.
